(** * Zo voice assistant front-end: a model of the page script

    The repository holds two variants of one page script: the richer one
    (speech-to-text, debounced dispatch to the backend, text-to-speech) and
    the simpler [script.js] (speech-to-text and visualizer only).  Both are
    event-driven: the browser calls the script's handlers one at a time, and
    the handlers mutate the script's global variables and the browser
    objects they hold.  The model below keeps that shape: one state made of
    the script's globals, the part of the browser the script can observe,
    and the page; every handler is a computation in a small state-and-
    exception monad; the browser's stimuli are an [event] type with a
    [step] function. *)

From Stdlib Require Import PrimFloat Uint63 ZArith NArith Ascii String.
From Stdlib.Strings Require Import Byte.
From stdpp Require Import base option list gmap.

Local Open Scope list_scope.
Set Warnings "-register-all".
Set Warnings "-notation-overridden".
Set Warnings "-notation-incompatible-prefix".

(** ** JavaScript strings

    A JavaScript string is a sequence of UTF-16 code units. *)

Definition jsstring := list N.

Definition lit (s : string) : jsstring :=
  (fun c => N_of_ascii c) <$> list_ascii_of_string s.
Arguments lit : simpl never.

(** The code units [String.prototype.trim] strips: WhiteSpace and
    LineTerminator of the language specification. *)
Definition is_ws (c : N) : bool :=
  ((9 <=? c) && (c <=? 13) || (c =? 32) || (c =? 160) || (c =? 5760)
   || (8192 <=? c) && (c <=? 8202) || (c =? 8232) || (c =? 8233)
   || (c =? 8239) || (c =? 8287) || (c =? 12288) || (c =? 65279))%N.

Fixpoint trimStart (s : jsstring) : jsstring :=
  match s with
  | c :: s' => if is_ws c then trimStart s' else s
  | [] => []
  end.

Definition trimEnd (s : jsstring) : jsstring := rev (trimStart (rev s)).

Definition trim (s : jsstring) : jsstring := trimEnd (trimStart s).

(** A string is truthy when it is not empty. *)
Definition nonempty (s : jsstring) : bool :=
  match s with [] => false | _ => true end.

Definition space : jsstring := [32%N].

(** [Array.prototype.join(" ")]. *)
Fixpoint space_join (ts : list jsstring) : jsstring :=
  match ts with
  | [] => []
  | [t] => t
  | t :: ts' => t ++ space ++ space_join ts'
  end.

(** ** JavaScript values

    The values the script passes around besides strings: the parsed body of
    the backend's reply, and whatever it hands to the display and to speech
    synthesis.  Numbers are IEEE doubles. *)

Inductive json :=
| JNull
| JBool (b : bool)
| JNum (f : float)
| JStr (s : jsstring)
| JArr (items : list json)
| JObj (fields : list (jsstring * json)).

(** ToBoolean. *)
Definition truthy (v : json) : bool :=
  match v with
  | JNull => false
  | JBool b => b
  | JNum f => negb (PrimFloat.is_zero f || PrimFloat.is_nan f)
  | JStr s => nonempty s
  | JArr _ | JObj _ => true
  end.

(** Own property [k] of an object built by [JSON.parse]: of two members
    with one key the later wins. *)
Fixpoint own_property (k : jsstring) (fields : list (jsstring * json)) : option json :=
  match fields with
  | [] => None
  | (k', v) :: rest =>
      match own_property k rest with
      | Some w => Some w
      | None => if decide (k' = k) then Some v else None
      end
  end.

(** [v.response] for a value [v] that is neither null nor undefined;
    [None] is undefined.  Only objects parsed from JSON can carry the
    property: strings, arrays, numbers and booleans have no property of
    that name, own or inherited. *)
Definition get_response (v : json) : option json :=
  match v with
  | JObj fields => own_property (lit "response") fields
  | _ => None
  end.

(** What a thrown value is, as far as the script can tell them apart. *)
Inductive jserror :=
| TypeError            (* property access on undefined or null *)
| ReferenceError       (* [speechSynthesis] is not defined *)
| InvalidStateError    (* [recognition.start()] on a started session *)
| NotAllowedError      (* [getUserMedia] refused *)
| ApiError (statusText : jsstring)  (* thrown by [sendToBackend] on [!response.ok] *)
| NetworkError         (* [fetch] rejected *)
| SyntaxError.         (* [response.json()] rejected *)

(** ** The page state *)

(** One bar of the visualizer: the factor of its [scaleY] transform and its
    opacity. *)
Record bar := Bar { scale : float; opacity : float }.

(** The life of the one [SpeechRecognition] session object. *)
Inductive engine_state :=
| Inactive      (* never started, or ended *)
| Starting      (* [start()] accepted, [onstart] not delivered yet *)
| Started.      (* between [onstart] and [onend] *)

(** The script's global variables.  [None] stands for undefined or null. *)
Record Script := MkScript {
  audioContext : option nat;
  mediaStreamSource : option nat;   (* the source node, named by the stream it wraps *)
  visualElements : option (list bar);
  visualValueCount : nat;
  recognition : bool;               (* is the recognition object defined *)
  isListeningForSTT : bool;
  isVisualizerActive : bool;
  sttFinalTranscript : jsstring;
  sttPauseTimer : option nat
}.

(** The part of the browser the script acts on. *)
Record Browser := MkBrowser {
  engine : engine_state;
  speech : option bool;        (* [speechSynthesis]: absent, or is it speaking *)
  timers : list nat;           (* handles of the timeouts that are outstanding *)
  next_id : nat;               (* next fresh handle or object name *)
  contexts : list nat;         (* audio contexts created and not closed *)
  streams : list nat;          (* capture streams granted, tracks not stopped *)
  media_requests : nat;        (* [getUserMedia] promises not settled *)
  frames : nat;                (* render callbacks scheduled with [requestAnimationFrame] *)
  fetches : nat                (* backend requests awaiting their response *)
}.

(** The page. *)
Record Dom := MkDom {
  button_in_main : bool;       (* [visualMainElement.contains(microphoneButton)] *)
  button_active : bool;        (* class [active], label [stop] *)
  button_disabled : bool;
  transcript : json            (* what [setTranscript] was last given *)
}.

(** What the script asked of the outside, in order. *)
Inductive effect :=
| Fetch (input : jsstring)         (* POST /query with body {input} *)
| Speak (text : json)
| CancelSpeech
| TrackStop (stream : nat)
| Disconnect (stream : nat)
| CloseContext (ctx : nat)
| RecognitionStart
| RecognitionStop
| Console (text : jsstring)
| Uncaught (e : jserror).

Record State := MkState {
  script : Script;
  browser : Browser;
  dom : Dom;
  log : list effect
}.

(** Field updates. *)
Definition on_script (f : Script -> Script) (s : State) : State :=
  MkState (f (script s)) (browser s) (dom s) (log s).
Definition on_browser (f : Browser -> Browser) (s : State) : State :=
  MkState (script s) (f (browser s)) (dom s) (log s).
Definition on_dom (f : Dom -> Dom) (s : State) : State :=
  MkState (script s) (browser s) (f (dom s)) (log s).
Definition on_log (f : list effect -> list effect) (s : State) : State :=
  MkState (script s) (browser s) (dom s) (f (log s)).

Definition set_audioContext v (g : Script) :=
  MkScript v (mediaStreamSource g) (visualElements g) (visualValueCount g) (recognition g)
    (isListeningForSTT g) (isVisualizerActive g) (sttFinalTranscript g) (sttPauseTimer g).
Definition set_mediaStreamSource v (g : Script) :=
  MkScript (audioContext g) v (visualElements g) (visualValueCount g) (recognition g)
    (isListeningForSTT g) (isVisualizerActive g) (sttFinalTranscript g) (sttPauseTimer g).
Definition set_visualElements v (g : Script) :=
  MkScript (audioContext g) (mediaStreamSource g) v (visualValueCount g) (recognition g)
    (isListeningForSTT g) (isVisualizerActive g) (sttFinalTranscript g) (sttPauseTimer g).
Definition set_recognition v (g : Script) :=
  MkScript (audioContext g) (mediaStreamSource g) (visualElements g) (visualValueCount g) v
    (isListeningForSTT g) (isVisualizerActive g) (sttFinalTranscript g) (sttPauseTimer g).
Definition set_isListeningForSTT v (g : Script) :=
  MkScript (audioContext g) (mediaStreamSource g) (visualElements g) (visualValueCount g)
    (recognition g) v (isVisualizerActive g) (sttFinalTranscript g) (sttPauseTimer g).
Definition set_isVisualizerActive v (g : Script) :=
  MkScript (audioContext g) (mediaStreamSource g) (visualElements g) (visualValueCount g)
    (recognition g) (isListeningForSTT g) v (sttFinalTranscript g) (sttPauseTimer g).
Definition set_sttFinalTranscript v (g : Script) :=
  MkScript (audioContext g) (mediaStreamSource g) (visualElements g) (visualValueCount g)
    (recognition g) (isListeningForSTT g) (isVisualizerActive g) v (sttPauseTimer g).
Definition set_sttPauseTimer v (g : Script) :=
  MkScript (audioContext g) (mediaStreamSource g) (visualElements g) (visualValueCount g)
    (recognition g) (isListeningForSTT g) (isVisualizerActive g) (sttFinalTranscript g) v.

Definition set_engine v (b : Browser) :=
  MkBrowser v (speech b) (timers b) (next_id b) (contexts b) (streams b)
    (media_requests b) (frames b) (fetches b).
Definition set_speech v (b : Browser) :=
  MkBrowser (engine b) v (timers b) (next_id b) (contexts b) (streams b)
    (media_requests b) (frames b) (fetches b).
Definition set_timers v (b : Browser) :=
  MkBrowser (engine b) (speech b) v (next_id b) (contexts b) (streams b)
    (media_requests b) (frames b) (fetches b).
Definition set_next_id v (b : Browser) :=
  MkBrowser (engine b) (speech b) (timers b) v (contexts b) (streams b)
    (media_requests b) (frames b) (fetches b).
Definition set_contexts v (b : Browser) :=
  MkBrowser (engine b) (speech b) (timers b) (next_id b) v (streams b)
    (media_requests b) (frames b) (fetches b).
Definition set_streams v (b : Browser) :=
  MkBrowser (engine b) (speech b) (timers b) (next_id b) (contexts b) v
    (media_requests b) (frames b) (fetches b).
Definition set_media_requests v (b : Browser) :=
  MkBrowser (engine b) (speech b) (timers b) (next_id b) (contexts b) (streams b)
    v (frames b) (fetches b).
Definition set_frames v (b : Browser) :=
  MkBrowser (engine b) (speech b) (timers b) (next_id b) (contexts b) (streams b)
    (media_requests b) v (fetches b).
Definition set_fetches v (b : Browser) :=
  MkBrowser (engine b) (speech b) (timers b) (next_id b) (contexts b) (streams b)
    (media_requests b) (frames b) v.

Definition set_button_in_main v (d : Dom) :=
  MkDom v (button_active d) (button_disabled d) (transcript d).
Definition set_button_active v (d : Dom) :=
  MkDom (button_in_main d) v (button_disabled d) (transcript d).
Definition set_button_disabled v (d : Dom) :=
  MkDom (button_in_main d) (button_active d) v (transcript d).
Definition set_transcript v (d : Dom) :=
  MkDom (button_in_main d) (button_active d) (button_disabled d) v.

(** ** Handlers as computations

    A handler runs on the current state and either returns or throws; in
    both cases the state it leaves is the one it reached. *)

Inductive result (A : Type) :=
| Ok (a : A) (s : State)
| Throw (e : jserror) (s : State).
Arguments Ok {A} a s.
Arguments Throw {A} e s.

Definition M (A : Type) : Type := State -> result A.

Definition ret {A} (a : A) : M A := fun s => Ok a s.
Definition bind {A B} (m : M A) (k : A -> M B) : M B :=
  fun s => match m s with
           | Ok a s' => k a s'
           | Throw e s' => Throw e s'
           end.
Definition throw {A} (e : jserror) : M A := fun s => Throw e s.
Definition read {A} (f : State -> A) : M A := fun s => Ok (f s) s.
Definition modify (f : State -> State) : M unit := fun s => Ok tt (f s).
Definition try_catch {A} (m : M A) (h : jserror -> M A) : M A :=
  fun s => match m s with
           | Ok a s' => Ok a s'
           | Throw e s' => h e s'
           end.

Declare Scope js_scope.
Delimit Scope js_scope with js.
Notation "'let*' x := m 'in' k" := (bind m (fun x => k))
  (at level 10, x name, m at level 100, k at level 200) : js_scope.
Notation "m ;; k" := (bind m (fun _ => k))
  (at level 100, k at level 200, right associativity) : js_scope.
Notation "'when' c 'then' m" := (if c then m else ret tt)
  (at level 99, c at level 98, m at level 99) : js_scope.
Local Open Scope js_scope.

Definition state_of {A} (r : result A) : State :=
  match r with Ok _ s => s | Throw _ s => s end.

Definition emit (e : effect) : M unit := modify (on_log (fun l => l ++ [e])).
Definition assign (f : Script -> Script) : M unit := modify (on_script f).
Definition page (f : Dom -> Dom) : M unit := modify (on_dom f).
Definition host (f : Browser -> Browser) : M unit := modify (on_browser f).

(** A fresh handle or object name. *)
Definition fresh : M nat :=
  let* n := read (fun s => next_id (browser s)) in
  host (set_next_id (S n));;
  ret n.

(** [xs.forEach(f)] and [for (let i = 0; i < n; ++i)] over [seq 0 n]. *)
Fixpoint forEach {A} (xs : list A) (f : A -> M unit) : M unit :=
  match xs with
  | [] => ret tt
  | x :: xs' => f x;; forEach xs' f
  end.

(** The browser calls a handler; a throw that escapes it is reported and
    the page goes on from the state reached. *)
Definition call (m : M unit) (s : State) : State :=
  match m s with
  | Ok _ s' => s'
  | Throw e s' => on_log (fun l => l ++ [Uncaught e]) s'
  end.

(** Calling an [async] function: it runs to its first [await] and hands
    back a promise; a throw inside rejects the promise, which nobody here
    handles, and the caller goes on. *)
Definition async (m : M unit) : M unit :=
  try_catch m (fun e => emit (Uncaught e)).

(** ** Browser objects the script drives *)

(** [clearTimeout(h)]: a handle that is null, unknown or already fired is
    ignored. *)
Definition clearTimeout (h : option nat) : M unit :=
  match h with
  | Some t => host (fun b => set_timers (filter (fun x => x <> t) (timers b)) b)
  | None => ret tt
  end.

(** [setTimeout(callback, delay)]: the delay is not modelled; the callback
    runs when the browser delivers the timer's firing. *)
Definition setTimeout : M nat :=
  let* h := fresh in
  host (fun b => set_timers (timers b ++ [h]) b);;
  ret h.

(** [recognition.start()] and [recognition.stop()]. *)
Definition recognition_start : M unit :=
  let* defined := read (fun s => recognition (script s)) in
  if negb defined then throw TypeError else
  let* e := read (fun s => engine (browser s)) in
  match e with
  | Inactive => host (set_engine Starting);; emit RecognitionStart
  | _ => throw InvalidStateError
  end.

Definition recognition_stop : M unit :=
  let* defined := read (fun s => recognition (script s)) in
  if negb defined then throw TypeError else
  let* e := read (fun s => engine (browser s)) in
  match e with
  | Inactive => ret tt
  | _ => emit RecognitionStop
  end.

(** [Math.max] of two numbers. *)
Definition Math_max (a b : float) : float :=
  if PrimFloat.is_nan a || PrimFloat.is_nan b then nan
  else if (a <? b)%float then b
  else if (b <? a)%float then a
  else if get_sign a then b else a.

(** An element of a [Uint8Array] read as a number. *)
Definition number_of_byte (b : byte) : float :=
  of_uint63 (Uint63.of_Z (Z.of_N (Byte.to_N b))).

(** ** Code common to both variants *)

Definition setTranscript (text : json) : M unit := page (set_transcript text).

Definition toggleMicButtonState (active : bool) : M unit := page (set_button_active active).

(** The bars come out of the style sheet with [scaleY(0)] and opacity 0. *)
Definition createDOMElementsForVisualizer : M unit :=
  page (set_button_in_main false);;
  let* n := read (fun s => visualValueCount (script s)) in
  assign (set_visualElements (Some (replicate n (Bar 0 0)))).

Definition dataMap : gmap nat nat :=
  list_to_map
    [(15, 0); (16, 1); (14, 2); (17, 3); (13, 4); (18, 5); (12, 6); (19, 7);
     (11, 8); (20, 9); (10, 10); (21, 11); (9, 12); (22, 13); (8, 14); (23, 15);
     (7, 16); (24, 17); (6, 18); (25, 19); (5, 20); (26, 21); (4, 22); (27, 23);
     (3, 24); (28, 25); (2, 26); (29, 27); (1, 28); (30, 29); (0, 30); (31, 31)].

(** [values[dataMap[i]] / 255]; an index with no entry, or past the end of
    the data, reads undefined, which divides to NaN. *)
Definition sample (values : list float) (i : nat) : float :=
  (match dataMap !! i with
   | Some j => match values !! j with Some v => v | None => nan end
   | None => nan
   end / 255)%float.

(** [visualElements.forEach(elm => ...)] setting every bar's two styles. *)
Definition style_all (b : bar) : M unit :=
  let* ve := read (fun s => visualElements (script s)) in
  match ve with
  | Some bars => assign (set_visualElements (Some ((fun _ => b) <$> bars)))
  | None => throw TypeError
  end.

Definition processFrameForVisualizer (data : list byte) : M unit :=
  let values := number_of_byte <$> data in
  let* n := read (fun s => visualValueCount (script s)) in
  forEach (seq 0 n) (fun i =>
    let value := sample values i in
    let* ve := read (fun s => visualElements (script s)) in
    match ve with
    | Some bars =>
        if decide (i < length bars)
        then assign (set_visualElements (Some (<[i := Bar value (Math_max 0.25 value)]> bars)))
        else throw TypeError
    | None => throw TypeError
    end).

(** The render callback of [startVisualizer]; [data] is what the analyser
    returns for this frame. *)
Definition renderVisualizerFrame (data : list byte) : M unit :=
  let* active := read (fun s => isVisualizerActive (script s)) in
  if active then
    processFrameForVisualizer data;;
    host (fun b => set_frames (S (frames b)) b)
  else
    style_all (Bar 0 0).

(** [startVisualizer] up to its [await]. *)
Definition startVisualizer : M unit :=
  let* active := read (fun s => isVisualizerActive (script s)) in
  if active then ret tt else
  createDOMElementsForVisualizer;;
  style_all (Bar 0.5 0.25);;
  let* ctx := fresh in
  host (fun b => set_contexts (contexts b ++ [ctx]) b);;
  assign (set_audioContext (Some ctx));;
  host (fun b => set_media_requests (S (media_requests b)) b).

Section resumed.

(** The two variants differ in [processVisualizerError] only. *)
Variable processVisualizerError : jserror -> M unit.

(** [startVisualizer] from its [await] on, once the capture request is
    settled. *)
Definition startVisualizer_resumed (granted : bool) : M unit :=
  try_catch
    (if granted then
       let* stream := fresh in
       host (fun b => set_streams (streams b ++ [stream]) b);;
       let* ctx := read (fun s => audioContext (script s)) in
       match ctx with
       | Some _ =>
           assign (set_mediaStreamSource (Some stream));;
           assign (set_isVisualizerActive true);;
           host (fun b => set_frames (S (frames b)) b)
       | None => throw TypeError
       end
     else throw NotAllowedError)
    (fun error =>
       processVisualizerError error;;
       let* inside := read (fun s => button_in_main (dom s)) in
       when negb inside then page (set_button_in_main true)).

End resumed.

Definition stopVisualizer : M unit :=
  let* source := read (fun s => mediaStreamSource (script s)) in
  match source with
  | Some stream =>
      host (fun b => set_streams (filter (fun x => x <> stream) (streams b)) b);;
      emit (TrackStop stream);;
      emit (Disconnect stream);;
      assign (set_mediaStreamSource None)
  | None => ret tt
  end;;
  let* ctx := read (fun s => audioContext (script s)) in
  let* opened := read (fun s => contexts (browser s)) in
  match ctx with
  | Some c =>
      when bool_decide (c ∈ opened) then
        (host (fun b => set_contexts (filter (fun x => x <> c) (contexts b)) b);;
         emit (CloseContext c);;
         assign (set_audioContext None))
  | None => ret tt
  end;;
  assign (set_isVisualizerActive false);;
  style_all (Bar 0 0);;
  let* inside := read (fun s => button_in_main (dom s)) in
  when negb inside then page (set_button_in_main true).

Definition toggleSTTAndVisualizer : M unit :=
  let* listening := read (fun s => isListeningForSTT (script s)) in
  if listening then recognition_stop
  else
    async startVisualizer;;
    recognition_start.

(** What the page is told at load about the device and the browser. *)
Record Config := MkConfig {
  mobile : bool;             (* the user agent matches the mobile pattern *)
  stt_supported : bool;      (* [SpeechRecognition] exists *)
  tts_supported : bool       (* [speechSynthesis] exists *)
}.

(** One entry of [event.results]: its [isFinal] and the transcript of its
    first alternative. *)
Record SpeechRecognitionResult := MkResult {
  isFinal : bool;
  transcript0 : jsstring
}.

Record SpeechRecognitionEvent := MkEvent {
  resultIndex : nat;
  results : list SpeechRecognitionResult
}.

(** The loop of [onresult]: from [resultIndex] on, final transcripts go to
    one string and the others to another, with nothing in between. *)
Definition collect (ev : SpeechRecognitionEvent) : jsstring * jsstring :=
  foldl (fun acc r =>
           if isFinal r then (fst acc, snd acc ++ transcript0 r)
           else (fst acc ++ transcript0 r, snd acc))
        ([], []) (drop (resultIndex ev) (results ev)).

(** How a [fetch] and the reading of its body end. *)
Inductive reply :=
| Unreachable                                   (* [fetch] rejects *)
| Response (ok : bool) (statusText : jsstring) (body : option json).
    (* [body]: the parsed JSON, if the body parses *)

(** ** The richer variant: speech in, backend, speech out *)

Module Assistant.

Definition speakText (text : json) : M unit :=
  let* synth := read (fun s => speech (browser s)) in
  match synth with
  | Some speaking =>
      when speaking then emit CancelSpeech;;
      emit (Speak text);;
      host (set_speech (Some true))
  | None => emit (Console (lit "Text-to-Speech not supported in this browser."))
  end.

Definition thinking : jsstring := lit "Thinking...".
Definition no_valid_response : jsstring := lit "Sorry, I didn't get a valid response.".
Definition could_not_connect : jsstring := lit "Sorry, I couldn't connect to the AI.".

(** [sendToBackend] up to its first [await]: the request goes out. *)
Definition sendToBackend (text : jsstring) : M unit :=
  if negb (nonempty text) || negb (nonempty (trim text)) then ret tt else
  setTranscript (JStr thinking);;
  emit (Fetch text);;
  host (fun b => set_fetches (S (fetches b)) b).

(** [sendToBackend] from the [await] on, once the request is settled. *)
Definition sendToBackend_resumed (r : reply) : M unit :=
  try_catch
    (match r with
     | Unreachable => throw NetworkError
     | Response ok statusText body =>
         if negb ok then throw (ApiError statusText) else
         match body with
         | None => throw SyntaxError
         | Some result =>
             match (if truthy result then get_response result else None) with
             | Some answer =>
                 if truthy answer then
                   setTranscript answer;;
                   speakText answer
                 else
                   setTranscript (JStr no_valid_response);;
                   speakText (JStr no_valid_response)
             | None =>
                 setTranscript (JStr no_valid_response);;
                 speakText (JStr no_valid_response)
             end
         end
     end)
    (fun error =>
       emit (Console (lit "Backend API error:"));;
       setTranscript (JStr could_not_connect);;
       speakText (JStr could_not_connect)).

Definition processVisualizerError (error : jserror) : M unit :=
  emit (Console (lit "Microphone access error for visualizer:"));;
  assign (set_isVisualizerActive false);;
  toggleMicButtonState false;;
  setTranscript (JStr (lit "Mic Access Denied"));;
  speakText (JStr (lit "Mic Access Denied")).

Definition click_start_to_talk : jsstring :=
  lit "Click " ++ [34%N] ++ lit "start" ++ [34%N] ++ lit " to talk.".

Definition initSpeechRecognition (supported : bool) : M unit :=
  if negb supported then
    emit (Console (lit "Speech Recognition not supported by this browser."));;
    setTranscript (JStr (lit "Browser doesn't support STT."));;
    speakText (JStr (lit "Browser doesn't support speech to text."));;
    page (set_button_disabled true)
  else
    assign (set_recognition true).

Definition onstart : M unit :=
  assign (set_isListeningForSTT true);;
  assign (set_sttFinalTranscript []);;
  let* timer := read (fun s => sttPauseTimer (script s)) in
  clearTimeout timer;;
  let* synth := read (fun s => speech (browser s)) in
  match synth with
  | Some speaking =>
      when speaking then (emit CancelSpeech;; host (set_speech (Some false)))
  | None => throw ReferenceError
  end;;
  setTranscript (JStr (lit "Listening..."));;
  toggleMicButtonState true.

Definition onresult (event : SpeechRecognitionEvent) : M unit :=
  let* timer := read (fun s => sttPauseTimer (script s)) in
  clearTimeout timer;;
  let interimTranscript := fst (collect event) in
  let finalTranscriptSinceLastResult := snd (collect event) in
  when nonempty finalTranscriptSinceLastResult then
    assign (fun g => set_sttFinalTranscript
                       (sttFinalTranscript g ++ finalTranscriptSinceLastResult ++ space) g);;
  let* buffer := read (fun s => sttFinalTranscript (script s)) in
  setTranscript (JStr (buffer ++ interimTranscript));;
  let* h := setTimeout in
  assign (set_sttPauseTimer (Some h)).

(** The callback [onresult] hands to [setTimeout]. *)
Definition pause_elapsed : M unit :=
  let* buffer := read (fun s => sttFinalTranscript (script s)) in
  let textToSend := trim buffer in
  when nonempty textToSend then async (sendToBackend textToSend);;
  assign (set_sttFinalTranscript []).

Definition onerror (error : jsstring) : M unit :=
  emit (Console (lit "Speech recognition error:"));;
  let* timer := read (fun s => sttPauseTimer (script s)) in
  clearTimeout timer;;
  assign (set_isListeningForSTT false);;
  toggleMicButtonState false;;
  stopVisualizer;;
  let errorMessage :=
    if decide (error = lit "no-speech") then lit "I didn't hear anything. Please try again."
    else if decide (error = lit "not-allowed")
         then lit "Microphone access denied. Please allow it in your browser settings."
         else lit "Speech input error. Please try again." in
  setTranscript (JStr errorMessage);;
  speakText (JStr errorMessage).

Definition onend : M unit :=
  assign (set_isListeningForSTT false);;
  let* timer := read (fun s => sttPauseTimer (script s)) in
  clearTimeout timer;;
  let* buffer := read (fun s => sttFinalTranscript (script s)) in
  let textToSend := trim buffer in
  when nonempty textToSend then async (sendToBackend textToSend);;
  assign (set_sttFinalTranscript []).

Definition load (cfg : Config) : M unit :=
  initSpeechRecognition (stt_supported cfg);;
  setTranscript (JStr click_start_to_talk);;
  speakText (JStr (lit "Click start to talk.")).

(** The state the script's top level leaves before [load] is delivered. *)
Definition fresh_page (cfg : Config) : State :=
  MkState
    (MkScript None None None (if mobile cfg then 16 else 32) false false false [] None)
    (MkBrowser Inactive (if tts_supported cfg then Some false else None) [] 1 [] [] 0 0 0)
    (MkDom true false false (JStr []))
    [].

Definition boot (cfg : Config) : State := call (load cfg) (fresh_page cfg).

(** What the browser can deliver to the page. *)
Inductive event :=
| Click                                   (* on the microphone button *)
| MediaSettled (granted : bool)           (* a [getUserMedia] promise *)
| Frame (data : list byte)                (* an animation frame *)
| RecStart
| RecResult (ev : SpeechRecognitionEvent)
| RecError (error : jsstring)
| RecEnd
| TimerFired (h : nat)
| FetchSettled (r : reply)
| SpeechDone.                             (* the synthesizer falls silent *)

(** An event that cannot occur in the state (a click on a button that is
    not on the page, a timer that is not outstanding, a recognition event
    with no session) leaves it as it is. *)
Definition step (s : State) (e : event) : State :=
  match e with
  | Click =>
      if button_in_main (dom s) && negb (button_disabled (dom s))
      then call toggleSTTAndVisualizer s else s
  | MediaSettled granted =>
      match media_requests (browser s) with
      | S n => call (async (startVisualizer_resumed processVisualizerError granted))
                    (on_browser (set_media_requests n) s)
      | O => s
      end
  | Frame data =>
      match frames (browser s) with
      | S n => if decide (length data = 32)
               then call (renderVisualizerFrame data) (on_browser (set_frames n) s)
               else s
      | O => s
      end
  | RecStart =>
      match engine (browser s) with
      | Starting => call onstart (on_browser (set_engine Started) s)
      | _ => s
      end
  | RecResult ev =>
      match engine (browser s) with
      | Started => call (onresult ev) s
      | _ => s
      end
  | RecError error =>
      match engine (browser s) with
      | Inactive => s
      | _ => call (onerror error) s
      end
  | RecEnd =>
      match engine (browser s) with
      | Inactive => s
      | _ => call onend (on_browser (set_engine Inactive) s)
      end
  | TimerFired h =>
      if bool_decide (h ∈ timers (browser s))
      then call pause_elapsed
             (on_browser (fun b => set_timers (filter (fun x => x <> h) (timers b)) b) s)
      else s
  | FetchSettled r =>
      match fetches (browser s) with
      | S n => call (async (sendToBackend_resumed r)) (on_browser (set_fetches n) s)
      | O => s
      end
  | SpeechDone =>
      match speech (browser s) with
      | Some true => on_browser (set_speech (Some false)) s
      | _ => s
      end
  end.

Definition run (s : State) (es : list event) : State := foldl step s es.

(** The utterances handed to the backend so far, oldest first. *)
Definition sent (s : State) : list jsstring :=
  omap (fun e => match e with Fetch t => Some t | _ => None end) (log s).

Definition spoken (s : State) : list json :=
  omap (fun e => match e with Speak t => Some t | _ => None end) (log s).

End Assistant.

(** ** The simpler variant, [script.js]: speech in, no backend *)

Module Simple.

Definition processVisualizerError (error : jserror) : M unit :=
  emit (Console (lit "Microphone access error for visualizer:"));;
  assign (set_isVisualizerActive false);;
  toggleMicButtonState false;;
  setTranscript (JStr (lit "Mic Access Denied")).

Definition initSpeechRecognition (supported : bool) : M unit :=
  if negb supported then
    emit (Console (lit "Speech Recognition not supported by this browser."));;
    setTranscript (JStr (lit "Browser doesn't support STT."));;
    page (set_button_disabled true)
  else
    assign (set_recognition true).

Definition onstart : M unit :=
  assign (set_isListeningForSTT true);;
  setTranscript (JStr (lit "Listening..."));;
  toggleMicButtonState true.

Definition onresult (event : SpeechRecognitionEvent) : M unit :=
  let interimTranscript := fst (collect event) in
  let finalTranscript := snd (collect event) in
  setTranscript (JStr (if nonempty finalTranscript then finalTranscript else interimTranscript)).

Definition onerror (error : jsstring) : M unit :=
  emit (Console (lit "Speech recognition error:"));;
  assign (set_isListeningForSTT false);;
  toggleMicButtonState false;;
  stopVisualizer;;
  let errorMessage :=
    if decide (error = lit "no-speech") then lit "I didn't hear anything. Please try again."
    else if decide (error = lit "not-allowed")
         then lit "Microphone access denied. Please allow it in your browser settings."
         else lit "Speech input error. Please try again." in
  setTranscript (JStr errorMessage).

Definition onend : M unit :=
  assign (set_isListeningForSTT false);;
  setTranscript (JStr (lit "Ready"));;
  toggleMicButtonState false;;
  stopVisualizer.

Definition load (supported : bool) : M unit :=
  initSpeechRecognition supported;;
  setTranscript (JStr Assistant.click_start_to_talk).

Definition fresh_page : State :=
  MkState
    (MkScript None None None 32 false false false [] None)
    (MkBrowser Inactive None [] 1 [] [] 0 0 0)
    (MkDom true false false (JStr []))
    [].

Definition boot (supported : bool) : State := call (load supported) fresh_page.

Inductive event :=
| Click
| MediaSettled (granted : bool)
| Frame (data : list byte)
| RecStart
| RecResult (ev : SpeechRecognitionEvent)
| RecError (error : jsstring)
| RecEnd.

Definition step (s : State) (e : event) : State :=
  match e with
  | Click =>
      if button_in_main (dom s) && negb (button_disabled (dom s))
      then call toggleSTTAndVisualizer s else s
  | MediaSettled granted =>
      match media_requests (browser s) with
      | S n => call (async (startVisualizer_resumed processVisualizerError granted))
                    (on_browser (set_media_requests n) s)
      | O => s
      end
  | Frame data =>
      match frames (browser s) with
      | S n => if decide (length data = 32)
               then call (renderVisualizerFrame data) (on_browser (set_frames n) s)
               else s
      | O => s
      end
  | RecStart =>
      match engine (browser s) with
      | Starting => call onstart (on_browser (set_engine Started) s)
      | _ => s
      end
  | RecResult ev =>
      match engine (browser s) with
      | Started => call (onresult ev) s
      | _ => s
      end
  | RecError error =>
      match engine (browser s) with
      | Inactive => s
      | _ => call (onerror error) s
      end
  | RecEnd =>
      match engine (browser s) with
      | Inactive => s
      | _ => call onend (on_browser (set_engine Inactive) s)
      end
  end.

Definition run (s : State) (es : list event) : State := foldl step s es.

End Simple.

(** Capture resources released so far. *)
Definition is_release (e : effect) : bool :=
  match e with
  | TrackStop _ | Disconnect _ | CloseContext _ => true
  | _ => false
  end.

Definition released (s : State) : list effect := List.filter is_release (log s).

(** * Facts about the model

    ** Trimming *)

Section trim_facts.

Lemma trimStart_app_ws s c : is_ws c = true -> trimStart s = [] -> trimStart (s ++ [c]) = [].
Proof.
  intros Hc. induction s as [|d s IH]; simpl.
  - now rewrite Hc.
  - destruct (is_ws d); [exact IH | discriminate].
Qed.

Lemma trimStart_app_keep s t : trimStart s <> [] -> trimStart (s ++ t) = trimStart s ++ t.
Proof.
  induction s as [|d s IH]; simpl; [congruence|].
  destruct (is_ws d); auto.
Qed.

Lemma trimStart_idem s : trimStart (trimStart s) = trimStart s.
Proof.
  induction s as [|d s IH]; simpl; [reflexivity|].
  destruct (is_ws d) eqn:E; [exact IH | simpl; now rewrite E].
Qed.

Lemma trimStart_head s : match trimStart s with c :: _ => is_ws c = false | [] => True end.
Proof.
  induction s as [|d s IH]; simpl; [exact I|].
  destruct (is_ws d) eqn:E; [exact IH | exact E].
Qed.

(** A trailing white-space code unit does not survive [trimEnd]. *)
Lemma trimEnd_snoc_ws s c : is_ws c = true -> trimEnd (s ++ [c]) = trimEnd s.
Proof.
  intros Hc. unfold trimEnd. rewrite rev_app_distr. simpl. now rewrite Hc.
Qed.

Lemma trimEnd_nil_inv s : trimEnd s = [] -> trimStart (rev s) = [].
Proof.
  unfold trimEnd. intros H. apply (f_equal (@rev N)) in H.
  now rewrite rev_involutive in H.
Qed.

(** [trimEnd] keeps a prefix, so it cannot bring white space to the front. *)
Lemma trimEnd_prefix s : exists t, s = trimEnd s ++ t.
Proof.
  unfold trimEnd.
  assert (H : forall r : jsstring, exists t, r = t ++ trimStart r).
  { induction r as [|d r [t IH]]; simpl.
    - now exists [].
    - destruct (is_ws d).
      + exists (d :: t). simpl. now f_equal.
      + now exists []. }
  destruct (H (rev s)) as [t Ht]. exists (rev t).
  rewrite <- rev_app_distr, <- Ht. now rewrite rev_involutive.
Qed.

Lemma trimStart_trimEnd s : trimStart s = s -> trimStart (trimEnd s) = trimEnd s.
Proof.
  intros Hs. destruct (trimEnd_prefix s) as [t Ht].
  destruct (trimEnd s) as [|c u] eqn:E; [reflexivity|].
  rewrite Ht in Hs. simpl in Hs. simpl.
  destruct (is_ws c) eqn:Ec; [|reflexivity].
  exfalso. pose proof (trimStart_head (u ++ t)) as Hh.
  rewrite Hs in Hh. simpl in Hh. congruence.
Qed.

Lemma trimEnd_idem s : trimEnd (trimEnd s) = trimEnd s.
Proof.
  unfold trimEnd. now rewrite rev_involutive, trimStart_idem.
Qed.

Lemma trim_idem s : trim (trim s) = trim s.
Proof.
  unfold trim. rewrite (trimStart_trimEnd (trimStart s)) by apply trimStart_idem.
  apply trimEnd_idem.
Qed.

Lemma trimStart_all_ws s : trimStart s = [] -> forall t, trimStart (s ++ t) = trimStart t.
Proof.
  induction s as [|d s IH]; simpl; [reflexivity|].
  destruct (is_ws d); [exact IH | discriminate].
Qed.

Lemma trim_snoc_ws s c : is_ws c = true -> trim (s ++ [c]) = trim s.
Proof.
  intros Hc. unfold trim.
  destruct (trimStart s) as [|d u] eqn:E.
  - now rewrite (trimStart_app_ws s c Hc E).
  - rewrite trimStart_app_keep by congruence. rewrite E.
    now apply trimEnd_snoc_ws.
Qed.

Lemma trim_snoc_space s : trim (s ++ space) = trim s.
Proof. now apply trim_snoc_ws. Qed.

End trim_facts.

(** ** Running handlers *)

Ltac js_unfold :=
  unfold call, async, try_catch, bind, ret, throw, read, modify, emit, assign, page, host,
    state_of, on_script, on_browser, on_dom, on_log in *.

Lemma sent_app s l :
  Assistant.sent (on_log (fun l0 => l0 ++ l) s)
  = Assistant.sent s ++ omap (fun e => match e with Fetch t => Some t | _ => None end) l.
Proof. unfold Assistant.sent, on_log. simpl. apply omap_app. Qed.

Lemma nonempty_trim_trim b : nonempty (trim b) = true -> nonempty (trim (trim b)) = true.
Proof. now rewrite trim_idem. Qed.

(** [sendToBackend] on a text that is already trimmed and not empty sends
    that text, once. *)
Lemma sendToBackend_trimmed b s :
  nonempty (trim b) = true ->
  Assistant.sendToBackend (trim b) s
  = Ok tt (on_browser (fun br => set_fetches (S (fetches br)) br)
             (on_log (fun l => l ++ [Fetch (trim b)])
                (on_dom (set_transcript (JStr Assistant.thinking)) s))).
Proof.
  intros H. unfold Assistant.sendToBackend.
  rewrite (nonempty_trim_trim _ H), H. reflexivity.
Qed.

Ltac js_setters :=
  unfold set_audioContext, set_mediaStreamSource, set_visualElements, set_recognition,
    set_isListeningForSTT, set_isVisualizerActive, set_sttFinalTranscript, set_sttPauseTimer,
    set_engine, set_speech, set_timers, set_next_id, set_contexts, set_streams,
    set_media_requests, set_frames, set_fetches,
    set_button_in_main, set_button_active, set_button_disabled, set_transcript in *.

Ltac js_prims :=
  unfold clearTimeout, setTimeout, fresh, recognition_start, recognition_stop,
    setTranscript, toggleMicButtonState in *.

Ltac js_run := js_prims; js_unfold; js_setters; simpl.

Ltac destruct_state s :=
  let ac := fresh "ac" in let ms := fresh "ms" in let ve := fresh "ve" in
  let n := fresh "n" in let rc := fresh "rc" in let li := fresh "li" in
  let va := fresh "va" in let buf := fresh "buf" in let tm := fresh "tm" in
  let en := fresh "en" in let sp := fresh "sp" in let ts := fresh "ts" in
  let nx := fresh "nx" in let cs := fresh "cs" in let ss := fresh "ss" in
  let mr := fresh "mr" in let fr := fresh "fr" in let fe := fresh "fe" in
  let bm := fresh "bm" in let ba := fresh "ba" in let bd := fresh "bd" in
  let tr := fresh "tr" in let lg := fresh "lg" in
  destruct s as [[ac ms ve n rc li va buf tm] [en sp ts nx cs ss mr fr fe] [bm ba bd tr] lg].

(** [clearTimeout] never throws, and touches the outstanding timers only. *)
Lemma clearTimeout_spec h s :
  clearTimeout h s
  = Ok tt (on_browser
             (fun b => set_timers
                         (match h with
                          | Some t => filter (fun x => x <> t) (timers b)
                          | None => timers b
                          end) b) s).
Proof. destruct_state s. destruct h; reflexivity. Qed.

(** The example of the specification, as a reachable state: one final
    fragment, then the session ends before the pause has elapsed. *)
Definition desktop : Config := MkConfig false true true.

Definition heard_left_over : State :=
  Assistant.run (Assistant.boot desktop)
    [Assistant.Click; Assistant.MediaSettled true; Assistant.RecStart;
     Assistant.RecResult (MkEvent 0 [MkResult true (lit "left over")])].

(** C4. When the recognition session ends while the buffer, trimmed, is not
    empty, the trimmed buffer goes to the backend, once, and only then is
    the buffer reset: the last utterance before a stop is not dropped. *)
Theorem onend_flushes_buffer (s : State) :
  trim (sttFinalTranscript (script s)) <> [] ->
  Assistant.sent (call Assistant.onend s)
  = Assistant.sent s ++ [trim (sttFinalTranscript (script s))]
  /\ sttFinalTranscript (script (call Assistant.onend s)) = []
  /\ isListeningForSTT (script (call Assistant.onend s)) = false.
Proof.
  intros Hne.
  assert (Ht : nonempty (trim (sttFinalTranscript (script s))) = true).
  { destruct (trim (sttFinalTranscript (script s))); [congruence | reflexivity]. }
  destruct_state s. simpl in *.
  unfold Assistant.onend, call, bind, assign, read, modify. simpl.
  rewrite clearTimeout_spec. simpl. rewrite Ht. unfold async, try_catch.
  rewrite (sendToBackend_trimmed _ _ Ht).
  unfold Assistant.sent, modify, on_script, on_browser, on_log, on_dom; cbn.
  rewrite omap_app. auto.
Qed.

Lemma onend_flushes_left_over :
  trim (sttFinalTranscript (script heard_left_over)) <> []
  /\ Assistant.sent (call Assistant.onend heard_left_over) = [lit "left over"].
Proof.
  assert (H : trim (sttFinalTranscript (script heard_left_over)) <> [])
    by (vm_compute; discriminate).
  split; [exact H|].
  destruct (onend_flushes_buffer heard_left_over H) as [-> _].
  vm_compute. reflexivity.
Defined.

(** ** The backend's reply *)

(** C5, as the script has it.  However a request to the backend ends,
    the listening flag and the recognition session are left as they were.
    When the request cannot be made, the status is not a success, or the
    status is a success but the body does not parse as JSON, the fixed
    message "could not connect" is shown, and spoken where the browser can
    speak; when the status is a success and the body parses but carries no
    [response], the other fixed message, "no valid response", is shown and
    spoken instead. *)
Theorem backend_failure_messages (s : State) (r : reply) :
  let s' := call (async (Assistant.sendToBackend_resumed r)) s in
  let said (msg : jsstring) :=
    transcript (dom s') = JStr msg
    /\ Assistant.spoken s'
       = Assistant.spoken s ++ match speech (browser s) with Some _ => [JStr msg] | None => [] end in
  isListeningForSTT (script s') = isListeningForSTT (script s)
  /\ engine (browser s') = engine (browser s)
  /\ match r with
     | Unreachable | Response false _ _ | Response true _ None =>
         said Assistant.could_not_connect
     | Response true _ (Some v) =>
         match get_response v with
         | None => said Assistant.no_valid_response
         | Some _ => True
         end
     end
  /\ Assistant.no_valid_response <> Assistant.could_not_connect.
Proof.
  destruct_state s.
  assert (Hd : Assistant.no_valid_response <> Assistant.could_not_connect)
    by (vm_compute; discriminate).
  destruct r as [|ok st body]; [|destruct ok; destruct body as [v|]]; unfold Assistant.sendToBackend_resumed, Assistant.speakText,
    Assistant.spoken.
  all: try (destruct sp as [[]|]; js_run; rewrite ?omap_app; simpl; rewrite ?app_nil_r; auto; fail).
  destruct (truthy v), (get_response v) as [a|]; try destruct (truthy a);
    destruct sp as [[]|]; js_run; rewrite ?omap_app; simpl; rewrite ?app_nil_r; auto.
Qed.

(** A reply with a success status whose body is not JSON: it has no
    [response] either, and it is answered with the hard failure's message,
    not with "no valid response". *)
Lemma unparsable_success_gets_could_not_connect :
  transcript (dom (call (async (Assistant.sendToBackend_resumed
                                  (Response true (lit "OK") None))) heard_left_over))
  = JStr Assistant.could_not_connect
  /\ Assistant.could_not_connect <> Assistant.no_valid_response
  /\ isListeningForSTT
       (script (call (async (Assistant.sendToBackend_resumed
                               (Response true (lit "OK") None))) heard_left_over))
     = isListeningForSTT (script heard_left_over).
Proof.
  split; [vm_compute; reflexivity|].
  split; [vm_compute; discriminate | vm_compute; reflexivity].
Qed.

(** ** Teardown *)

Lemma fmap_const_twice {A B} (b : B) (l : list A) :
  (fun _ => b) <$> ((fun _ => b) <$> l) = (fun _ => b) <$> l.
Proof. induction l as [|x l IH]; [reflexivity | rewrite !fmap_cons; now f_equal]. Qed.

(** C8. Tearing the visualizer down twice in a row releases nothing a
    second time; and wherever the bars exist (they do from the first start
    on) neither call throws and the second leaves the state exactly as the
    first left it. *)
Theorem stopVisualizer_twice (s : State) :
  let s1 := state_of (stopVisualizer s) in
  released (state_of (stopVisualizer s1)) = released s1
  /\ (visualElements (script s) <> None ->
      stopVisualizer s = Ok tt s1 /\ stopVisualizer s1 = Ok tt s1).
Proof.
  destruct_state s. unfold stopVisualizer, style_all, released.
  destruct ms as [m|], ac as [c|], ve as [bars|], bm; js_run;
    try (destruct (bool_decide _) eqn:Hc; simpl; rewrite ?Hc; simpl);
    rewrite ?fmap_const_twice; (split; [reflexivity | intros H; try congruence; split; reflexivity]).
Qed.

Definition in_session : State :=
  Assistant.run (Assistant.boot desktop)
    [Assistant.Click; Assistant.MediaSettled true; Assistant.RecStart].

Lemma stopVisualizer_twice_in_session :
  visualElements (script in_session) <> None
  /\ stopVisualizer (state_of (stopVisualizer in_session))
     = Ok tt (state_of (stopVisualizer in_session))
  /\ released (state_of (stopVisualizer in_session))
     = [TrackStop 2; Disconnect 2; CloseContext 1].
Proof.
  assert (H : visualElements (script in_session) <> None) by (vm_compute; discriminate).
  split; [exact H|].
  split; [exact (proj2 (proj2 (stopVisualizer_twice in_session) H)) | vm_compute; reflexivity].
Defined.

(** ** Rendering a frame *)

(** What one turn of the loop of [processFrameForVisualizer] leaves in
    bar [i]. *)
Definition painted (values : list float) (i : nat) : bar :=
  Bar (sample values i) (Math_max 0.25 (sample values i)).

Lemma style_all_spec b s :
  style_all b s
  = match visualElements (script s) with
    | Some bars => Ok tt (on_script (set_visualElements (Some ((fun _ => b) <$> bars))) s)
    | None => Throw TypeError s
    end.
Proof. destruct_state s. destruct ve; reflexivity. Qed.

Lemma fmap_const_replicate {A B} (b : B) (l : list A) :
  (fun _ => b) <$> l = replicate (length l) b.
Proof. induction l as [|x l IH]; [reflexivity | rewrite fmap_cons; simpl; now f_equal]. Qed.

Lemma paint_loop_lookup values k : forall a (bars : list bar) i,
  a + k <= length bars ->
  foldl (fun bs j => <[j := painted values j]> bs) bars (seq a k) !! i
  = if decide (a <= i < a + k) then Some (painted values i) else bars !! i.
Proof.
  induction k as [|k IH]; intros a bars i Hlen; simpl.
  - case_decide; [lia | reflexivity].
  - rewrite IH by (rewrite length_insert; lia).
    destruct (decide (i = a)) as [->|Hne].
    + rewrite list_lookup_insert_eq by lia.
      repeat case_decide; try lia; reflexivity.
    + rewrite list_lookup_insert_ne by congruence.
      repeat case_decide; try lia; reflexivity.
Qed.

Lemma paint_loop_length values k : forall a (bars : list bar),
  length (foldl (fun bs j => <[j := painted values j]> bs) bars (seq a k)) = length bars.
Proof.
  induction k as [|k IH]; intros a bars; simpl; [reflexivity|].
  rewrite IH. apply length_insert.
Qed.

(** The loop of [processFrameForVisualizer] does not throw as long as the
    bars it indexes exist, and paints them one after the other. *)
Lemma processFrame_loop values k : forall a s (bars : list bar),
  visualElements (script s) = Some bars ->
  a + k <= length bars ->
  forEach (seq a k)
    (fun i =>
       let value := sample values i in
       let* ve := read (fun s => visualElements (script s)) in
       match ve with
       | Some bars =>
           if decide (i < length bars)
           then assign (set_visualElements (Some (<[i := Bar value (Math_max 0.25 value)]> bars)))
           else throw TypeError
       | None => throw TypeError
       end) s
  = Ok tt (on_script
             (set_visualElements
                (Some (foldl (fun bs j => <[j := painted values j]> bs) bars (seq a k)))) s).
Proof.
  induction k as [|k IH]; intros a s bars Hve Hlen.
  - destruct_state s. simpl in Hve. subst. reflexivity.
  - simpl. unfold bind at 1. unfold bind at 1. unfold read at 1. rewrite Hve.
    destruct (decide (a < length bars)) as [_|]; [|lia].
    unfold assign, modify.
    rewrite (IH (S a) _ (<[a := painted values a]> bars)).
    + destruct_state s. reflexivity.
    + destruct_state s. reflexivity.
    + rewrite length_insert. lia.
Qed.

Lemma dataMap_total i : i < 32 -> exists j, dataMap !! i = Some j /\ j < 32.
Proof.
  intros Hi.
  assert (H : forallb (fun i => match dataMap !! i with Some j => j <? 32 | None => false end)
                (seq 0 32) = true) by (vm_compute; reflexivity).
  rewrite forallb_forall in H. specialize (H i).
  destruct (dataMap !! i) as [j|].
  - exists j. split; [reflexivity|]. apply Nat.ltb_lt, H, in_seq. lia.
  - discriminate H. apply in_seq. lia.
Qed.

Lemma renderVisualizerFrame_active data s bars :
  visualElements (script s) = Some bars ->
  length bars = visualValueCount (script s) ->
  isVisualizerActive (script s) = true ->
  renderVisualizerFrame data s
  = Ok tt (on_browser (fun b => set_frames (S (frames b)) b)
             (on_script
                (set_visualElements
                   (Some (foldl (fun bs j => <[j := painted (number_of_byte <$> data) j]> bs)
                            bars (seq 0 (length bars))))) s)).
Proof.
  intros Hve Hlen Hact.
  unfold renderVisualizerFrame, processFrameForVisualizer.
  unfold bind at 1. unfold read at 1. rewrite Hact.
  unfold bind at 1. unfold bind at 1. unfold read at 1. rewrite <- Hlen.
  rewrite (processFrame_loop _ _ 0 s bars Hve) by lia.
  reflexivity.
Qed.

(** C7. While the visualizer is active a frame sets every bar [i] to the
    scale (sample the table assigns it)/255 and to the opacity
    max(0.25, that scale); a frame of zeros therefore leaves every bar at
    scale 0 and opacity 0.25.  After [stopVisualizer], and after a frame
    that finds the visualizer inactive, every bar is at scale 0 and
    opacity 0. *)
Theorem frame_styles_every_bar (s : State) (data : list byte) (bars : list bar) :
  visualElements (script s) = Some bars ->
  length bars = visualValueCount (script s) ->
  length bars <= 32 ->
  (isVisualizerActive (script s) = true ->
   exists bars',
     visualElements (script (call (renderVisualizerFrame data) s)) = Some bars'
     /\ length bars' = length bars
     /\ (forall i j b, i < length bars -> dataMap !! i = Some j -> data !! j = Some b ->
         bars' !! i = Some (Bar (number_of_byte b / 255)
                               (Math_max 0.25 (number_of_byte b / 255))))
     /\ (data = replicate 32 Byte.x00 -> bars' = replicate (length bars) (Bar 0 0.25)))
  /\ (isVisualizerActive (script s) = false ->
      visualElements (script (call (renderVisualizerFrame data) s))
      = Some (replicate (length bars) (Bar 0 0)))
  /\ visualElements (script (call stopVisualizer s)) = Some (replicate (length bars) (Bar 0 0))
  /\ isVisualizerActive (script (call stopVisualizer s)) = false.
Proof.
  intros Hve Hlen H32. split; [|split].
  - intros Hact. unfold call.
    rewrite (renderVisualizerFrame_active data s bars Hve Hlen Hact).
    eexists. split; [destruct_state s; reflexivity|].
    assert (Hpt : forall i j b, i < length bars -> dataMap !! i = Some j -> data !! j = Some b ->
      foldl (fun bs j => <[j := painted (number_of_byte <$> data) j]> bs) bars
        (seq 0 (length bars)) !! i
      = Some (Bar (number_of_byte b / 255) (Math_max 0.25 (number_of_byte b / 255)))).
    { intros i j b Hi Hj Hb. rewrite paint_loop_lookup by lia.
      destruct (decide (0 <= i < 0 + length bars)) as [_|]; [|lia].
      unfold painted, sample. rewrite Hj, list_lookup_fmap, Hb. reflexivity. }
    split; [apply paint_loop_length|]. split; [exact Hpt|].
    intros ->. apply list_eq. intros i.
    destruct (decide (i < length bars)) as [Hi|Hi].
    + destruct (dataMap_total i) as (j & Hj & Hj32); [lia|].
      rewrite (Hpt i j Byte.x00 Hi Hj) by (apply lookup_replicate_2; exact Hj32).
      symmetry. apply lookup_replicate_2. exact Hi.
    + rewrite !lookup_ge_None_2; [reflexivity | rewrite length_replicate; lia
                                 | rewrite paint_loop_length; lia].
  - intros Hina. unfold call, renderVisualizerFrame.
    unfold bind at 1. unfold read at 1. rewrite Hina, style_all_spec, Hve.
    destruct_state s. simpl. now rewrite fmap_const_replicate.
  - destruct_state s. simpl in Hve. subst ve.
    unfold stopVisualizer, style_all.
    destruct ms as [m|], ac as [c|], bm; js_run;
      try (destruct (bool_decide _); simpl);
      rewrite fmap_const_replicate; split; reflexivity.
Qed.

Definition capturing : State :=
  Assistant.run (Assistant.boot desktop) [Assistant.Click; Assistant.MediaSettled true].

Lemma silent_frame_while_capturing :
  visualElements (script capturing) = Some (replicate 32 (Bar 0.5 0.25))
  /\ isVisualizerActive (script capturing) = true
  /\ visualElements (script (call (renderVisualizerFrame (replicate 32 Byte.x00)) capturing))
     = Some (replicate 32 (Bar 0 0.25))
  /\ visualElements (script (call stopVisualizer capturing)) = Some (replicate 32 (Bar 0 0)).
Proof.
  assert (Hve : visualElements (script capturing) = Some (replicate 32 (Bar 0.5 0.25)))
    by (vm_compute; reflexivity).
  assert (Hact : isVisualizerActive (script capturing) = true) by (vm_compute; reflexivity).
  assert (Hlen : length (replicate 32 (Bar 0.5 0.25)) = visualValueCount (script capturing))
    by (vm_compute; reflexivity).
  assert (H32 : length (replicate 32 (Bar 0.5 0.25)) <= 32) by (vm_compute; lia).
  destruct (frame_styles_every_bar capturing (replicate 32 Byte.x00) _ Hve Hlen H32)
    as (Hon & _ & Hoff & _).
  destruct (Hon Hact) as (bars' & Hv & _ & _ & Hz).
  split; [exact Hve|]. split; [exact Hact|].
  split; [rewrite Hv, (Hz eq_refl); reflexivity | exact Hoff].
Defined.

(** ** The table of bars *)

Definition phone : Config := MkConfig true true true.

Definition capturing_on_phone : State :=
  Assistant.run (Assistant.boot phone) [Assistant.Click; Assistant.MediaSettled true].

(** A frame in which only the lowest frequency bucket sounds. *)
Definition lowest_bucket_only : list byte := Byte.xff :: replicate 31 Byte.x00.

(** C6. With 32 bars the table is a bijection on 0..31 that fans the
    buckets out from the centre: bucket [2k] is shown [k] bars left of the
    centre (bar [15 - k]) and bucket [2k+1] [k] bars right of it (bar
    [16 + k]).  With 16 bars the same table is read at 0..15: bar [i] shows
    bucket [30 - 2i], which is no map of 0..15 to itself and no fan-out; the
    lowest bucket lights the last bar, not a central one. *)
Theorem dataMap_fans_out_for_32_bars_only :
  (length (omap (fun i => dataMap !! i) (seq 0 32)) = 32
   /\ NoDup (omap (fun i => dataMap !! i) (seq 0 32))
   /\ Forall (fun j => j < 32) (omap (fun i => dataMap !! i) (seq 0 32))
   /\ Forall (fun k => dataMap !! (15 - k) = Some (2 * k)
                       /\ dataMap !! (16 + k) = Some (2 * k + 1)) (seq 0 16))
  /\ (fun i => dataMap !! i) <$> seq 0 16
     = Some <$> [30; 28; 26; 24; 22; 20; 18; 16; 14; 12; 10; 8; 6; 4; 2; 0]
  /\ visualValueCount (script capturing_on_phone) = 16
  /\ visualElements
       (script (call (renderVisualizerFrame lowest_bucket_only) capturing_on_phone))
     = Some (replicate 15 (Bar 0 0.25) ++ [Bar 1 1]).
Proof.
  split; [split; [|split; [|split]]|split; [|split]].
  - vm_compute. reflexivity.
  - refine (bool_decide_unpack _ _). vm_compute. exact I.
  - refine (bool_decide_unpack _ _). vm_compute. exact I.
  - refine (bool_decide_unpack _ _). vm_compute. exact I.
  - vm_compute. reflexivity.
  - vm_compute. reflexivity.
  - vm_compute. reflexivity.
Qed.

(** ** What a handler leaves alone

    Most handlers touch a small part of the state.  [keeps R m] says that
    whatever state [m] starts from, normal return or throw, the state it
    reaches is related to the start by [R]; for a reflexive and transitive
    [R] this follows the structure of [m]. *)

Definition keeps (R : State -> State -> Prop) {A} (m : M A) : Prop :=
  forall s, R s (state_of (m s)).

Section keeping.

Variable R : State -> State -> Prop.
Hypothesis R_refl : forall s, R s s.
Hypothesis R_trans : forall s1 s2 s3, R s1 s2 -> R s2 s3 -> R s1 s3.

Lemma keeps_ret {A} (a : A) : keeps R (ret a).
Proof. intros s. apply R_refl. Qed.

Lemma keeps_throw {A} e : keeps R (@throw A e).
Proof. intros s. apply R_refl. Qed.

Lemma keeps_read {A} (f : State -> A) : keeps R (read f).
Proof. intros s. apply R_refl. Qed.

Lemma keeps_modify f : (forall s, R s (f s)) -> keeps R (modify f).
Proof. intros H s. apply H. Qed.

Lemma keeps_bind {A B} (m : M A) (k : A -> M B) :
  keeps R m -> (forall a, keeps R (k a)) -> keeps R (bind m k).
Proof.
  intros Hm Hk s. unfold bind. specialize (Hm s).
  destruct (m s) as [a s'|e s']; simpl in *; [|exact Hm].
  eapply R_trans; [exact Hm | apply Hk].
Qed.

Lemma keeps_try_catch {A} (m : M A) (h : jserror -> M A) :
  keeps R m -> (forall e, keeps R (h e)) -> keeps R (try_catch m h).
Proof.
  intros Hm Hh s. unfold try_catch. specialize (Hm s).
  destruct (m s) as [a s'|e s']; simpl in *; [exact Hm|].
  eapply R_trans; [exact Hm | apply Hh].
Qed.

Lemma keeps_forEach {A} (xs : list A) (f : A -> M unit) :
  (forall x, keeps R (f x)) -> keeps R (forEach xs f).
Proof.
  intros Hf. induction xs as [|x xs IH]; simpl.
  - apply keeps_ret.
  - apply keeps_bind; [apply Hf | intros _; exact IH].
Qed.

Lemma keeps_call (m : M unit) s :
  keeps R m -> (forall s e, R s (on_log (fun l => l ++ [e]) s)) -> R s (call m s).
Proof.
  intros Hm Hlog. unfold call. specialize (Hm s).
  destruct (m s) as [a s'|e s']; simpl in *; [exact Hm|].
  eapply R_trans; [exact Hm | apply Hlog].
Qed.

End keeping.

(** Breaks a handler down along its structure; what is left are the
    primitive updates, each to be checked against the relation. *)
Ltac keeps_structure refl trans :=
  repeat first
    [ match goal with
      | |- keeps _ (ret _) => apply (keeps_ret _ refl)
      | |- keeps _ (throw _) => apply (keeps_throw _ refl)
      | |- keeps _ (read _) => apply (keeps_read _ refl)
      | |- keeps _ (bind _ _) => apply (keeps_bind _ trans); [|intros ?]
      | |- keeps _ (try_catch _ _) => apply (keeps_try_catch _ trans); [|intros ?]
      | |- keeps _ (forEach _ _) => apply (keeps_forEach _ refl trans); intros ?
      | |- keeps _ (if ?c then _ else _) => destruct c
      | |- keeps _ (match ?x with _ => _ end) => destruct x
      end
    | progress unfold emit, assign, page, host, async, setTranscript,
        toggleMicButtonState, clearTimeout ].

(** *** The pause timer *)

Definition timers_untouched (s s' : State) : Prop :=
  timers (browser s') = timers (browser s)
  /\ sttPauseTimer (script s') = sttPauseTimer (script s)
  /\ next_id (browser s) <= next_id (browser s').

Lemma timers_untouched_refl s : timers_untouched s s.
Proof. unfold timers_untouched. auto. Qed.

Lemma timers_untouched_trans s1 s2 s3 :
  timers_untouched s1 s2 -> timers_untouched s2 s3 -> timers_untouched s1 s3.
Proof. unfold timers_untouched. intros (-> & -> & ?) (-> & -> & ?). repeat split; lia. Qed.

Lemma fresh_keeps_timers : keeps timers_untouched fresh.
Proof. intros s. destruct_state s. unfold timers_untouched. simpl. auto. Qed.

Ltac keeps_timers :=
  keeps_structure timers_untouched_refl timers_untouched_trans;
  first
    [ apply fresh_keeps_timers
    | match goal with |- keeps _ (modify _) => apply keeps_modify end;
      intros s; destruct_state s;
      unfold timers_untouched; js_setters; js_unfold; simpl; auto ].

Lemma speakText_keeps_timers t : keeps timers_untouched (Assistant.speakText t).
Proof. unfold Assistant.speakText. keeps_timers. Qed.

Lemma stopVisualizer_keeps_timers : keeps timers_untouched stopVisualizer.
Proof. unfold stopVisualizer, style_all. keeps_timers. Qed.

Lemma toggle_keeps_timers : keeps timers_untouched toggleSTTAndVisualizer.
Proof.
  unfold toggleSTTAndVisualizer, recognition_stop, recognition_start, startVisualizer,
    createDOMElementsForVisualizer, style_all.
  keeps_timers.
Qed.

Ltac split_ifs :=
  repeat (match goal with |- context [if ?c then _ else _] => destruct c end; simpl).

Lemma sendToBackend_keeps_timers t : keeps timers_untouched (Assistant.sendToBackend t).
Proof. unfold Assistant.sendToBackend. keeps_timers. Qed.

Lemma sendToBackend_resumed_keeps_timers r :
  keeps timers_untouched (Assistant.sendToBackend_resumed r).
Proof.
  unfold Assistant.sendToBackend_resumed.
  keeps_structure timers_untouched_refl timers_untouched_trans;
    try apply speakText_keeps_timers; keeps_timers.
Qed.

Lemma startVisualizer_resumed_keeps_timers granted :
  keeps timers_untouched (startVisualizer_resumed Assistant.processVisualizerError granted).
Proof.
  unfold startVisualizer_resumed, Assistant.processVisualizerError.
  keeps_structure timers_untouched_refl timers_untouched_trans;
    try apply speakText_keeps_timers; keeps_timers.
Qed.

Lemma renderVisualizerFrame_keeps_timers data :
  keeps timers_untouched (renderVisualizerFrame data).
Proof. unfold renderVisualizerFrame, processFrameForVisualizer, style_all. keeps_timers. Qed.

Lemma pause_elapsed_keeps_timers : keeps timers_untouched Assistant.pause_elapsed.
Proof.
  unfold Assistant.pause_elapsed.
  keeps_structure timers_untouched_refl timers_untouched_trans;
    try apply sendToBackend_keeps_timers; keeps_timers.
Qed.

Lemma log_keeps_timers s e : timers_untouched s (on_log (fun l => l ++ [e]) s).
Proof. destruct_state s. unfold timers_untouched. simpl. auto. Qed.

(** What a recognition callback does to the outstanding timers. *)
Definition cancelled (s : State) : list nat :=
  match sttPauseTimer (script s) with
  | Some t => filter (fun x => x <> t) (timers (browser s))
  | None => timers (browser s)
  end.

Lemma onstart_timers s :
  timers (browser (call Assistant.onstart s)) = cancelled s
  /\ sttPauseTimer (script (call Assistant.onstart s)) = sttPauseTimer (script s)
  /\ next_id (browser (call Assistant.onstart s)) = next_id (browser s).
Proof.
  destruct_state s. unfold Assistant.onstart, cancelled. js_run.
  destruct tm, sp as [[]|]; simpl; auto.
Qed.

Lemma onend_timers s :
  timers (browser (call Assistant.onend s)) = cancelled s
  /\ sttPauseTimer (script (call Assistant.onend s)) = sttPauseTimer (script s)
  /\ next_id (browser (call Assistant.onend s)) = next_id (browser s).
Proof.
  destruct_state s. unfold Assistant.onend, Assistant.sendToBackend, cancelled. js_run.
  destruct tm; simpl; split_ifs; auto.
Qed.

Lemma onerror_timers e s :
  timers (browser (call (Assistant.onerror e) s)) = cancelled s
  /\ sttPauseTimer (script (call (Assistant.onerror e) s)) = sttPauseTimer (script s)
  /\ next_id (browser (call (Assistant.onerror e) s)) = next_id (browser s).
Proof.
  destruct_state s.
  unfold Assistant.onerror, Assistant.speakText, stopVisualizer, style_all, cancelled. js_run.
  destruct tm, ms, ac, ve, bm; simpl; try (destruct (bool_decide _); simpl);
    destruct sp as [[]|]; simpl; auto.
Qed.

Lemma onresult_timers ev s :
  timers (browser (call (Assistant.onresult ev) s)) = cancelled s ++ [next_id (browser s)]
  /\ sttPauseTimer (script (call (Assistant.onresult ev) s)) = Some (next_id (browser s))
  /\ next_id (browser (call (Assistant.onresult ev) s)) = S (next_id (browser s)).
Proof.
  destruct_state s. unfold Assistant.onresult, cancelled. js_run.
  destruct tm; simpl; destruct (nonempty (collect ev).2); simpl; auto.
Qed.

(** At most one timer is outstanding, and it is the one the script holds
    the handle of. *)
Definition one_timer (s : State) : Prop :=
  timers (browser s) = []
  \/ exists h, timers (browser s) = [h]
               /\ sttPauseTimer (script s) = Some h
               /\ h < next_id (browser s).

Lemma one_timer_untouched s s' : timers_untouched s s' -> one_timer s -> one_timer s'.
Proof.
  intros (Ht & Hp & Hn) [H|(h & H1 & H2 & H3)]; [left | right; exists h].
  - now rewrite Ht.
  - rewrite Ht, Hp. repeat split; auto; lia.
Qed.

Lemma filter_ne_singleton (h : nat) : filter (fun x => x <> h) [h] = [].
Proof. rewrite filter_cons. case_decide; [congruence | reflexivity]. Qed.

Lemma cancelled_one_timer s : one_timer s -> cancelled s = [].
Proof.
  unfold cancelled. intros [H|(h & H1 & H2 & H3)].
  - rewrite H. destruct (sttPauseTimer (script s)); reflexivity.
  - rewrite H1, H2. apply filter_ne_singleton.
Qed.

Lemma async_keeps_timers m : keeps timers_untouched m -> keeps timers_untouched (async m).
Proof.
  intros H. unfold async.
  apply (keeps_try_catch _ timers_untouched_trans); [exact H|].
  intros e s. apply log_keeps_timers.
Qed.

Lemma called_keeps_timers m s : keeps timers_untouched m -> timers_untouched s (call m s).
Proof.
  intros H. apply (keeps_call _ timers_untouched_trans); [exact H|].
  intros s0 e. apply log_keeps_timers.
Qed.

Lemma browser_update_keeps_timers (f : Browser -> Browser) s :
  (forall b, timers (f b) = timers b /\ next_id (f b) = next_id b) ->
  timers_untouched s (on_browser f s).
Proof.
  intros H. destruct s as [sc b d l]. unfold timers_untouched, on_browser. simpl.
  destruct (H b) as [-> ->]. auto.
Qed.

Ltac browser_field :=
  apply browser_update_keeps_timers; intros [? ? ? ? ? ? ? ? ?]; split; reflexivity.

Lemma step_one_timer s e : one_timer s -> one_timer (Assistant.step s e).
Proof.
  intros Hs. destruct e as [|granted|data| |ev|err| |h|r|]; simpl.
  - destruct (button_in_main (dom s) && negb (button_disabled (dom s))); [|exact Hs].
    eapply one_timer_untouched; [|exact Hs].
    apply called_keeps_timers, toggle_keeps_timers.
  - destruct (media_requests (browser s)) as [|n]; [exact Hs|].
    eapply one_timer_untouched;
      [apply called_keeps_timers, async_keeps_timers, startVisualizer_resumed_keeps_timers|].
    eapply one_timer_untouched; [|exact Hs]. browser_field.
  - destruct (frames (browser s)) as [|n]; [exact Hs|].
    destruct (decide (length data = 32)); [|exact Hs].
    eapply one_timer_untouched; [apply called_keeps_timers, renderVisualizerFrame_keeps_timers|].
    eapply one_timer_untouched; [|exact Hs]. browser_field.
  - destruct (engine (browser s)); try exact Hs.
    assert (H1 : one_timer (on_browser (set_engine Started) s))
      by (eapply one_timer_untouched; [|exact Hs]; browser_field).
    left. rewrite (proj1 (onstart_timers _)). now apply cancelled_one_timer.
  - destruct (engine (browser s)); try exact Hs.
    destruct (onresult_timers ev s) as (Ht & Hp & Hn).
    right. exists (next_id (browser s)).
    rewrite Ht, Hp, Hn, (cancelled_one_timer s Hs). auto.
  - destruct (engine (browser s)); try exact Hs;
      left; rewrite (proj1 (onerror_timers _ _)); now apply cancelled_one_timer.
  - assert (H1 : one_timer (on_browser (set_engine Inactive) s))
      by (eapply one_timer_untouched; [|exact Hs]; browser_field).
    destruct (engine (browser s)); try exact Hs;
      left; rewrite (proj1 (onend_timers _)); now apply cancelled_one_timer.
  - destruct (bool_decide (h ∈ timers (browser s))) eqn:Hin; [|exact Hs].
    apply bool_decide_eq_true in Hin.
    eapply one_timer_untouched; [apply called_keeps_timers, pause_elapsed_keeps_timers|].
    left. destruct s as [sc b d l]. destruct b. simpl in *.
    destruct Hs as [H|(h' & H1 & H2 & H3)]; simpl in *; subst.
    + reflexivity.
    + apply list_elem_of_singleton in Hin. subst. apply filter_ne_singleton.
  - destruct (fetches (browser s)) as [|n]; [exact Hs|].
    eapply one_timer_untouched;
      [apply called_keeps_timers, async_keeps_timers, sendToBackend_resumed_keeps_timers|].
    eapply one_timer_untouched; [|exact Hs]. browser_field.
  - destruct (speech (browser s)) as [[]|]; exact Hs.
Qed.

Lemma boot_one_timer cfg : one_timer (Assistant.boot cfg).
Proof. left. destruct cfg as [[] [] []]; reflexivity. Qed.

Lemma run_one_timer es : forall s, one_timer s -> one_timer (Assistant.run s es).
Proof.
  induction es as [|e es IH]; intros s Hs; [exact Hs|].
  apply IH, step_one_timer, Hs.
Qed.

(** C9. In every state the page can reach at most one pause timer is
    outstanding, and it is the one whose handle the script holds; a result
    event, whatever its fragments, cancels it and leaves exactly the timer
    it schedules, a new one. *)
Theorem one_pause_timer_at_most (cfg : Config) (es : list Assistant.event) :
  let s := Assistant.run (Assistant.boot cfg) es in
  length (timers (browser s)) <= 1
  /\ (forall h, (h ∈ timers (browser s)) -> sttPauseTimer (script s) = Some h)
  /\ (forall ev, engine (browser s) = Started ->
      exists h, (h ∉ timers (browser s))
        /\ timers (browser (Assistant.step s (Assistant.RecResult ev))) = [h]
        /\ sttPauseTimer (script (Assistant.step s (Assistant.RecResult ev))) = Some h).
Proof.
  intros s. pose proof (run_one_timer es _ (boot_one_timer cfg)) as Hs. fold s in Hs.
  split; [|split].
  - destruct Hs as [->|(h & -> & _)]; simpl; lia.
  - intros h Hin. destruct Hs as [H|(h' & H1 & H2 & H3)].
    + rewrite H in Hin. now apply elem_of_nil in Hin.
    + rewrite H1 in Hin. apply list_elem_of_singleton in Hin. now subst.
  - intros ev Hen. exists (next_id (browser s)). simpl. rewrite Hen.
    destruct (onresult_timers ev s) as (Ht & Hp & _).
    rewrite Ht, Hp, (cancelled_one_timer s Hs). split; [|auto].
    destruct Hs as [->|(h' & -> & _ & Hlt)].
    + apply not_elem_of_nil.
    + intros Hin. apply list_elem_of_singleton in Hin. lia.
Qed.
Definition hello_events : list Assistant.event :=
  [Assistant.Click; Assistant.MediaSettled true; Assistant.RecStart;
   Assistant.RecResult (MkEvent 0 [MkResult false (lit "hello")])].

Definition hello_world : SpeechRecognitionEvent :=
  MkEvent 0 [MkResult true (lit "hello world")].

Lemma one_pause_timer_after_hello :
  engine (browser (Assistant.run (Assistant.boot desktop) hello_events)) = Started
  /\ exists h,
       (h ∉ timers (browser (Assistant.run (Assistant.boot desktop) hello_events)))
       /\ timers (browser (Assistant.step (Assistant.run (Assistant.boot desktop) hello_events)
                             (Assistant.RecResult hello_world)))
          = [h].
Proof.
  assert (He : engine (browser (Assistant.run (Assistant.boot desktop) hello_events)) = Started)
    by (vm_compute; reflexivity).
  split; [exact He|].
  pose proof (one_pause_timer_at_most desktop hello_events) as (_ & _ & Hres).
  destruct (Hres hello_world He) as (h & Hnew & Hone & _).
  exists h. split; [exact Hnew | exact Hone].
Defined.

(** ** From result events to the utterance *)

(** The final text one result event contributes: the transcripts of its
    final results from [resultIndex] on, one after the other. *)
Definition final_text (ev : SpeechRecognitionEvent) : jsstring :=
  concat (transcript0 <$> List.filter isFinal (drop (resultIndex ev) (results ev))).

(** What [onresult] appends to the buffer for one event. *)
Definition appended (ev : SpeechRecognitionEvent) : jsstring :=
  if nonempty (final_text ev) then final_text ev ++ space else [].

Lemma collect_loop rs : forall interim final,
  snd (foldl (fun acc r =>
                if isFinal r then (fst acc, snd acc ++ transcript0 r)
                else (fst acc ++ transcript0 r, snd acc))
             (interim, final) rs)
  = final ++ concat (transcript0 <$> List.filter isFinal rs).
Proof.
  induction rs as [|r rs IH]; intros interim final; simpl.
  - now rewrite app_nil_r.
  - destruct (isFinal r); simpl; rewrite IH; [now rewrite <- app_assoc | reflexivity].
Qed.

Lemma collect_final ev : snd (collect ev) = final_text ev.
Proof. unfold collect, final_text. now rewrite collect_loop. Qed.

Lemma onresult_buffer ev s :
  sttFinalTranscript (script (call (Assistant.onresult ev) s))
  = sttFinalTranscript (script s) ++ appended ev
  /\ log (call (Assistant.onresult ev) s) = log s
  /\ engine (browser (call (Assistant.onresult ev) s)) = engine (browser s).
Proof.
  unfold appended. rewrite <- collect_final.
  destruct_state s. unfold Assistant.onresult. js_run.
  destruct tm; simpl; destruct (nonempty (collect ev).2); simpl;
    rewrite ?app_nil_r; auto.
Qed.

Lemma run_cons s e es : Assistant.run s (e :: es) = Assistant.run (Assistant.step s e) es.
Proof. reflexivity. Qed.

Lemma step_result s ev :
  engine (browser s) = Started ->
  Assistant.step s (Assistant.RecResult ev) = call (Assistant.onresult ev) s.
Proof. intros H. unfold Assistant.step. now rewrite H. Qed.

Lemma results_buffer evs : forall s,
  engine (browser s) = Started ->
  sttFinalTranscript (script (Assistant.run s (Assistant.RecResult <$> evs)))
  = sttFinalTranscript (script s) ++ concat (appended <$> evs)
  /\ log (Assistant.run s (Assistant.RecResult <$> evs)) = log s
  /\ engine (browser (Assistant.run s (Assistant.RecResult <$> evs))) = Started.
Proof.
  induction evs as [|ev evs IH]; intros s Hen.
  - simpl. now rewrite app_nil_r.
  - rewrite !fmap_cons, run_cons, (step_result s ev Hen).
    destruct (onresult_buffer ev s) as (Hb & Hl & He).
    destruct (IH (call (Assistant.onresult ev) s)) as (Hb' & Hl' & He'); [congruence|].
    rewrite Hb', Hl', Hb, Hl, <- app_assoc. auto.
Qed.

(** After a result event the timer it scheduled is outstanding and the
    script holds its handle. *)
Lemma results_timer evs : forall s,
  engine (browser s) = Started -> evs <> [] ->
  exists h, sttPauseTimer (script (Assistant.run s (Assistant.RecResult <$> evs))) = Some h
            /\ h ∈ timers (browser (Assistant.run s (Assistant.RecResult <$> evs))).
Proof.
  induction evs as [|ev evs IH]; intros s Hen Hne; [congruence|].
  rewrite fmap_cons, run_cons, (step_result s ev Hen).
  destruct evs as [|ev' evs].
  - simpl. destruct (onresult_timers ev s) as (Ht & Hp & _).
    exists (next_id (browser s)). rewrite Ht, Hp. split; [reflexivity|].
    apply elem_of_app. right. apply list_elem_of_singleton. reflexivity.
  - apply IH; [|discriminate].
    now rewrite (proj2 (proj2 (onresult_buffer ev s))).
Qed.

Lemma concat_snoc_space ts :
  concat ((fun t => t ++ space) <$> ts)
  = match ts with [] => [] | _ => space_join ts ++ space end.
Proof.
  induction ts as [|t ts IH]; [reflexivity|].
  rewrite fmap_cons. simpl concat. rewrite IH.
  destruct ts as [|t' ts]; [now rewrite app_nil_r|].
  cbn [space_join]. now rewrite <- !app_assoc.
Qed.

Lemma concat_appended evs :
  concat (appended <$> evs)
  = concat ((fun t => t ++ space) <$> List.filter nonempty (final_text <$> evs)).
Proof.
  induction evs as [|ev evs IH]; [reflexivity|].
  rewrite !fmap_cons. simpl. unfold appended at 1.
  destruct (nonempty (final_text ev)); simpl; now rewrite IH.
Qed.

Lemma trim_concat_appended evs :
  trim (concat (appended <$> evs))
  = trim (space_join (List.filter nonempty (final_text <$> evs))).
Proof.
  rewrite concat_appended, concat_snoc_space.
  destruct (List.filter nonempty (final_text <$> evs)); [reflexivity|].
  apply trim_snoc_space.
Qed.

(** The timer callback sends the trimmed buffer if that is not empty, and
    empties the buffer. *)
Lemma pause_elapsed_sent s :
  Assistant.sent (call Assistant.pause_elapsed s)
  = Assistant.sent s ++ (if nonempty (trim (sttFinalTranscript (script s)))
                         then [trim (sttFinalTranscript (script s))] else [])
  /\ sttFinalTranscript (script (call Assistant.pause_elapsed s)) = [].
Proof.
  destruct (nonempty (trim (sttFinalTranscript (script s)))) eqn:Ht.
  - destruct_state s. simpl in *.
    unfold Assistant.pause_elapsed, call, bind, assign, read, modify. simpl.
    rewrite Ht. unfold async, try_catch.
    rewrite (sendToBackend_trimmed _ _ Ht).
    unfold Assistant.sent, modify, on_script, on_browser, on_log, on_dom; cbn.
    rewrite omap_app. auto.
  - destruct_state s. simpl in *.
    unfold Assistant.pause_elapsed, call, bind, assign, read, modify. simpl.
    rewrite Ht. unfold ret, on_script. simpl. rewrite app_nil_r. auto.
Qed.

(** Result events, then the pause: what goes to the backend. *)
Lemma dispatch_after_results s evs :
  engine (browser s) = Started ->
  sttFinalTranscript (script s) = [] ->
  evs <> [] ->
  exists h,
    sttPauseTimer (script (Assistant.run s (Assistant.RecResult <$> evs))) = Some h
    /\ h ∈ timers (browser (Assistant.run s (Assistant.RecResult <$> evs)))
    /\ Assistant.sent (Assistant.step (Assistant.run s (Assistant.RecResult <$> evs))
                         (Assistant.TimerFired h))
       = Assistant.sent s
         ++ (if nonempty (trim (space_join (List.filter nonempty (final_text <$> evs))))
             then [trim (space_join (List.filter nonempty (final_text <$> evs)))] else [])
    /\ sttFinalTranscript
         (script (Assistant.step (Assistant.run s (Assistant.RecResult <$> evs))
                    (Assistant.TimerFired h))) = [].
Proof.
  intros Hen Hbuf Hne.
  destruct (results_timer evs s Hen Hne) as (h & Hp & Hin).
  destruct (results_buffer evs s Hen) as (Hb & Hl & _).
  exists h. split; [exact Hp|]. split; [exact Hin|].
  set (s1 := Assistant.run s (Assistant.RecResult <$> evs)) in *.
  simpl. rewrite (bool_decide_eq_true_2 _ Hin).
  match goal with |- context [call Assistant.pause_elapsed ?x] => set (s2 := x) end.
  assert (Hs2 : sttFinalTranscript (script s2) = sttFinalTranscript (script s1)
                /\ log s2 = log s1) by (destruct s1 as [sc b d l]; split; reflexivity).
  destruct Hs2 as (Hb2 & Hl2).
  destruct (pause_elapsed_sent s2) as (-> & ->). split; [|reflexivity].
  rewrite Hb2, Hb, Hbuf. simpl. rewrite trim_concat_appended.
  unfold Assistant.sent. now rewrite Hl2, Hl.
Qed.

(** The results one event delivers: those from [resultIndex] on. *)
Definition delivered (ev : SpeechRecognitionEvent) : list SpeechRecognitionResult :=
  drop (resultIndex ev) (results ev).

(** An event that delivers at most one final result, and not an empty one. *)
Definition one_final (ev : SpeechRecognitionEvent) : Prop :=
  length (List.filter isFinal (delivered ev)) <= 1
  /\ Forall (fun r => transcript0 r <> []) (List.filter isFinal (delivered ev)).

Lemma filter_nonempty_one_final evs :
  Forall one_final evs ->
  List.filter nonempty (final_text <$> evs)
  = transcript0 <$> List.filter isFinal (concat (delivered <$> evs)).
Proof.
  induction 1 as [|ev evs [Hlen Hne] _ IH]; [reflexivity|].
  rewrite !fmap_cons. simpl concat. rewrite List.filter_app, fmap_app, <- IH.
  unfold final_text. fold (delivered ev). simpl.
  destruct (List.filter isFinal (delivered ev)) as [|r [|r' rs]]; simpl in *.
  - reflexivity.
  - rewrite app_nil_r. apply Forall_cons in Hne as [Hr _].
    destruct (transcript0 r); [congruence | reflexivity].
  - lia.
Qed.

(** C1, as the script has it.  Starting from an empty buffer (a session
    that has just started, or a pause that has just elapsed), result events
    and then the pause send at most one utterance: the texts of the events,
    space-joined and trimmed, where the text of an event is its final
    results' transcripts one after the other with nothing in between, and
    events with no final text are skipped; nothing is sent when that is
    empty.  Where every event delivers at most one final result, not empty,
    this is the final results' transcripts, space-joined and trimmed. *)
Theorem utterance_joins_event_texts (s : State) (evs : list SpeechRecognitionEvent) :
  engine (browser s) = Started ->
  sttFinalTranscript (script s) = [] ->
  evs <> [] ->
  exists h,
    sttPauseTimer (script (Assistant.run s (Assistant.RecResult <$> evs))) = Some h
    /\ Assistant.sent (Assistant.step (Assistant.run s (Assistant.RecResult <$> evs))
                         (Assistant.TimerFired h))
       = Assistant.sent s
         ++ (if nonempty (trim (space_join (List.filter nonempty (final_text <$> evs))))
             then [trim (space_join (List.filter nonempty (final_text <$> evs)))] else [])
    /\ (Forall one_final evs ->
        trim (space_join (List.filter nonempty (final_text <$> evs)))
        = trim (space_join
                  (transcript0 <$> List.filter isFinal (concat (delivered <$> evs))))).
Proof.
  intros Hen Hbuf Hne.
  destruct (dispatch_after_results s evs Hen Hbuf Hne) as (h & Hp & _ & Hs & _).
  exists h. split; [exact Hp|]. split; [exact Hs|].
  intros Hone. now rewrite (filter_nonempty_one_final evs Hone).
Qed.

Definition hello : SpeechRecognitionEvent := MkEvent 0 [MkResult false (lit "hello")].

Lemma hello_world_sent_once :
  engine (browser in_session) = Started
  /\ sttFinalTranscript (script in_session) = []
  /\ exists h,
       sttPauseTimer (script (Assistant.run in_session
                                (Assistant.RecResult <$> [hello; hello_world]))) = Some h
       /\ Assistant.sent (Assistant.step
                            (Assistant.run in_session
                               (Assistant.RecResult <$> [hello; hello_world]))
                            (Assistant.TimerFired h))
          = [lit "hello world"].
Proof.
  assert (He : engine (browser in_session) = Started) by (vm_compute; reflexivity).
  assert (Hb : sttFinalTranscript (script in_session) = []) by (vm_compute; reflexivity).
  assert (Hn : [hello; hello_world] <> []) by discriminate.
  split; [exact He|]. split; [exact Hb|].
  destruct (utterance_joins_event_texts in_session [hello; hello_world] He Hb Hn)
    as (h & Hp & Hs & _).
  exists h. split; [exact Hp|]. rewrite Hs. vm_compute. reflexivity.
Defined.

(** One event with two final results: their transcripts reach the backend
    with no space between them. *)
Definition a_then_b : SpeechRecognitionEvent :=
  MkEvent 0 [MkResult true (lit "a"); MkResult true (lit "b")].

Lemma two_finals_in_one_event :
  sttPauseTimer (script (Assistant.run in_session [Assistant.RecResult a_then_b])) = Some 3
  /\ Assistant.sent (Assistant.step (Assistant.run in_session [Assistant.RecResult a_then_b])
                       (Assistant.TimerFired 3))
     = [lit "ab"]
  /\ trim (space_join (transcript0 <$> List.filter isFinal (delivered a_then_b))) = lit "a b"
  /\ lit "ab" <> lit "a b".
Proof.
  split; [vm_compute; reflexivity|]. split; [vm_compute; reflexivity|].
  split; [vm_compute; reflexivity | vm_compute; discriminate].
Qed.

(** ** A session starts *)

(** C10. [onstart] empties the buffer, cancels the timer the script holds
    (so that, on a reachable state, none is outstanding), silences the
    synthesizer if it is speaking, and sets the listening flag.  What the
    result events of the new session then send at the pause is made of
    those events alone: nothing buffered before the start is in it. *)
Theorem onstart_resets_session (s : State) :
  sttFinalTranscript (script (call Assistant.onstart s)) = []
  /\ isListeningForSTT (script (call Assistant.onstart s)) = true
  /\ (forall h, sttPauseTimer (script s) = Some h ->
      h ∉ timers (browser (call Assistant.onstart s)))
  /\ (one_timer s -> timers (browser (call Assistant.onstart s)) = [])
  /\ speech (browser (call Assistant.onstart s)) <> Some true
  /\ (speech (browser s) = Some true ->
      log (call Assistant.onstart s) = log s ++ [CancelSpeech])
  /\ (forall evs, engine (browser s) = Started -> evs <> [] ->
      exists h,
        (h ∈ timers (browser (Assistant.run (call Assistant.onstart s)
                                (Assistant.RecResult <$> evs))))
        /\ Assistant.sent
             (Assistant.step (Assistant.run (call Assistant.onstart s)
                                (Assistant.RecResult <$> evs))
                (Assistant.TimerFired h))
           = Assistant.sent s
             ++ (if nonempty (trim (space_join (List.filter nonempty (final_text <$> evs))))
                 then [trim (space_join (List.filter nonempty (final_text <$> evs)))]
                 else [])).
Proof.
  assert (Hfacts :
    sttFinalTranscript (script (call Assistant.onstart s)) = []
    /\ isListeningForSTT (script (call Assistant.onstart s)) = true
    /\ speech (browser (call Assistant.onstart s)) <> Some true
    /\ (speech (browser s) = Some true -> log (call Assistant.onstart s) = log s ++ [CancelSpeech])
    /\ engine (browser (call Assistant.onstart s)) = engine (browser s)
    /\ Assistant.sent (call Assistant.onstart s) = Assistant.sent s).
  { destruct_state s. unfold Assistant.onstart, Assistant.sent. js_run.
    destruct tm, sp as [[]|]; simpl; rewrite ?omap_app, ?app_nil_r;
      repeat split; congruence. }
  destruct Hfacts as (Hb & Hl & Hs & Hc & He & Hsent).
  destruct (onstart_timers s) as (Ht & _).
  split; [exact Hb|]. split; [exact Hl|]. split; [|split; [|split; [exact Hs|split; [exact Hc|]]]].
  - intros h Hh. rewrite Ht. unfold cancelled. rewrite Hh.
    intros Hin. apply list_elem_of_filter in Hin as [Hne _]. congruence.
  - intros Hone. rewrite Ht. now apply cancelled_one_timer.
  - intros evs Hen Hne.
    destruct (dispatch_after_results (call Assistant.onstart s) evs) as (h & _ & Hin & Hd & _);
      [congruence | exact Hb | exact Hne |].
    exists h. split; [exact Hin|]. now rewrite Hd, Hsent.
Qed.

Lemma onstart_after_left_over :
  sttFinalTranscript (script heard_left_over) = lit "left over "
  /\ timers (browser heard_left_over) = [3]
  /\ sttFinalTranscript (script (call Assistant.onstart heard_left_over)) = []
  /\ timers (browser (call Assistant.onstart heard_left_over)) = []
  /\ exists h,
       Assistant.sent
         (Assistant.step (Assistant.run (call Assistant.onstart heard_left_over)
                            (Assistant.RecResult <$> [hello_world]))
            (Assistant.TimerFired h))
       = [lit "hello world"].
Proof.
  assert (Hone : one_timer heard_left_over).
  { right. exists 3. vm_compute. repeat split; lia. }
  assert (Hen : engine (browser heard_left_over) = Started) by (vm_compute; reflexivity).
  assert (Hne : [hello_world] <> []) by discriminate.
  destruct (onstart_resets_session heard_left_over) as (Hb & _ & _ & Ht & _ & _ & Hd).
  split; [vm_compute; reflexivity|]. split; [vm_compute; reflexivity|].
  split; [exact Hb|]. split; [exact (Ht Hone)|].
  destruct (Hd [hello_world] Hen Hne) as (h & _ & Hs).
  exists h. rewrite Hs. vm_compute. reflexivity.
Defined.

(** ** Where the cleanup happens *)

(** The capture side and the button are as they were: nothing released, no
    stream stopped, no audio context closed, the source node, the
    visualizer flag and the button's state unchanged. *)
Definition capture_kept (s s' : State) : Prop :=
  released s' = released s
  /\ streams (browser s') = streams (browser s)
  /\ (forall c, c ∈ contexts (browser s) -> c ∈ contexts (browser s'))
  /\ mediaStreamSource (script s') = mediaStreamSource (script s)
  /\ isVisualizerActive (script s') = isVisualizerActive (script s)
  /\ button_active (dom s') = button_active (dom s).

Lemma capture_kept_refl s : capture_kept s s.
Proof. unfold capture_kept. auto 10. Qed.

Lemma capture_kept_trans s1 s2 s3 :
  capture_kept s1 s2 -> capture_kept s2 s3 -> capture_kept s1 s3.
Proof.
  unfold capture_kept. intros (-> & -> & H1 & -> & -> & ->) (-> & -> & H2 & -> & -> & ->).
  auto 10.
Qed.

Lemma fresh_keeps_capture : keeps capture_kept fresh.
Proof. intros s. destruct_state s. unfold capture_kept. simpl. auto 10. Qed.

Ltac keeps_capture :=
  keeps_structure capture_kept_refl capture_kept_trans;
  first
    [ apply fresh_keeps_capture
    | match goal with |- keeps _ (modify _) => apply keeps_modify end;
      intros s; destruct_state s;
      unfold capture_kept, released; js_setters; js_unfold; simpl;
      rewrite ?List.filter_app, ?app_nil_r; simpl; rewrite ?app_nil_r;
      repeat split; auto; intros ? ?; apply elem_of_app; auto ].

Lemma toggle_keeps_capture : keeps capture_kept toggleSTTAndVisualizer.
Proof.
  unfold toggleSTTAndVisualizer, recognition_stop, recognition_start, startVisualizer,
    createDOMElementsForVisualizer, style_all.
  keeps_capture.
Qed.

Lemma sendToBackend_keeps_capture t : keeps capture_kept (Assistant.sendToBackend t).
Proof. unfold Assistant.sendToBackend. keeps_capture. Qed.

Lemma onend_keeps_capture : keeps capture_kept Assistant.onend.
Proof.
  unfold Assistant.onend.
  keeps_structure capture_kept_refl capture_kept_trans;
    try apply sendToBackend_keeps_capture; keeps_capture.
Qed.

Lemma log_keeps_capture s e : capture_kept s (on_log (fun l => l ++ [Uncaught e]) s).
Proof.
  destruct_state s. unfold capture_kept, released. simpl.
  rewrite List.filter_app. simpl. rewrite app_nil_r. auto 10.
Qed.

Lemma called_keeps_capture m s : keeps capture_kept m -> capture_kept s (call m s).
Proof.
  intros H. unfold call. specialize (H s).
  destruct (m s) as [a s'|e s']; simpl in *; [exact H|].
  eapply capture_kept_trans; [exact H | apply log_keeps_capture].
Qed.

(** What a callback that tears the visualizer down leaves behind, whether
    or not the teardown throws. *)
Lemma onerror_cleans_up e s :
  mediaStreamSource (script (call (Assistant.onerror e) s)) = None
  /\ isVisualizerActive (script (call (Assistant.onerror e) s)) = false
  /\ button_active (dom (call (Assistant.onerror e) s)) = false
  /\ isListeningForSTT (script (call (Assistant.onerror e) s)) = false
  /\ (forall m, mediaStreamSource (script s) = Some m ->
      m ∉ streams (browser (call (Assistant.onerror e) s))).
Proof.
  destruct_state s.
  unfold Assistant.onerror, Assistant.speakText, stopVisualizer, style_all. js_run.
  destruct tm, ms, ac, ve, bm; simpl; try (destruct (bool_decide _); simpl);
    destruct sp as [[]|]; simpl; repeat split; try congruence;
    intros m0 [= ->] Hin; apply list_elem_of_filter in Hin as [Hne _]; congruence.
Qed.

Lemma simple_onerror_cleans_up e s :
  mediaStreamSource (script (call (Simple.onerror e) s)) = None
  /\ isVisualizerActive (script (call (Simple.onerror e) s)) = false
  /\ button_active (dom (call (Simple.onerror e) s)) = false
  /\ isListeningForSTT (script (call (Simple.onerror e) s)) = false
  /\ (forall m, mediaStreamSource (script s) = Some m ->
      m ∉ streams (browser (call (Simple.onerror e) s))).
Proof.
  destruct_state s.
  unfold Simple.onerror, stopVisualizer, style_all. js_run.
  destruct ms, ac, ve, bm; simpl; try (destruct (bool_decide _); simpl);
    repeat split; try congruence;
    intros m0 [= ->] Hin; apply list_elem_of_filter in Hin as [Hne _]; congruence.
Qed.

Lemma simple_onend_cleans_up s :
  mediaStreamSource (script (call Simple.onend s)) = None
  /\ isVisualizerActive (script (call Simple.onend s)) = false
  /\ button_active (dom (call Simple.onend s)) = false
  /\ isListeningForSTT (script (call Simple.onend s)) = false
  /\ (forall m, mediaStreamSource (script s) = Some m ->
      m ∉ streams (browser (call Simple.onend s))).
Proof.
  destruct_state s.
  unfold Simple.onend, stopVisualizer, style_all. js_run.
  destruct ms, ac, ve, bm; simpl; try (destruct (bool_decide _); simpl);
    repeat split; try congruence;
    intros m0 [= ->] Hin; apply list_elem_of_filter in Hin as [Hne _]; congruence.
Qed.

Lemma toggle_keeps_buffer s :
  sttFinalTranscript (script (call toggleSTTAndVisualizer s)) = sttFinalTranscript (script s).
Proof.
  destruct_state s.
  unfold toggleSTTAndVisualizer, recognition_stop, recognition_start, startVisualizer,
    createDOMElementsForVisualizer, style_all. js_run.
  destruct li, rc, en, va; reflexivity.
Qed.

Lemma onend_clears s :
  sttFinalTranscript (script (call Assistant.onend s)) = []
  /\ isListeningForSTT (script (call Assistant.onend s)) = false.
Proof.
  destruct_state s. unfold Assistant.onend, Assistant.sendToBackend. js_run.
  destruct tm; simpl; split_ifs; auto.
Qed.

(** C3, as the script has it.  [toggle] does no cleanup of its own: it
    releases nothing, stops no stream, and leaves the button's state, the
    buffer and the timers alone.  In the richer variant the ended callback
    empties the buffer and clears the listening flag, and leaves the capture
    source and the button as they are; it is the error callback that stops
    the capture source and resets the button.  In the simpler variant the
    error callback and the ended callback both do. *)
Theorem cleanup_is_in_the_callbacks (s : State) :
  (capture_kept s (call toggleSTTAndVisualizer s)
   /\ sttFinalTranscript (script (call toggleSTTAndVisualizer s))
      = sttFinalTranscript (script s)
   /\ timers (browser (call toggleSTTAndVisualizer s)) = timers (browser s))
  /\ (capture_kept s (call Assistant.onend s)
      /\ sttFinalTranscript (script (call Assistant.onend s)) = []
      /\ isListeningForSTT (script (call Assistant.onend s)) = false)
  /\ (forall e,
        mediaStreamSource (script (call (Assistant.onerror e) s)) = None
        /\ isVisualizerActive (script (call (Assistant.onerror e) s)) = false
        /\ button_active (dom (call (Assistant.onerror e) s)) = false
        /\ isListeningForSTT (script (call (Assistant.onerror e) s)) = false
        /\ (forall m, mediaStreamSource (script s) = Some m ->
            m ∉ streams (browser (call (Assistant.onerror e) s))))
  /\ (forall e,
        mediaStreamSource (script (call (Simple.onerror e) s)) = None
        /\ isVisualizerActive (script (call (Simple.onerror e) s)) = false
        /\ button_active (dom (call (Simple.onerror e) s)) = false
        /\ isListeningForSTT (script (call (Simple.onerror e) s)) = false
        /\ (forall m, mediaStreamSource (script s) = Some m ->
            m ∉ streams (browser (call (Simple.onerror e) s))))
  /\ (mediaStreamSource (script (call Simple.onend s)) = None
      /\ isVisualizerActive (script (call Simple.onend s)) = false
      /\ button_active (dom (call Simple.onend s)) = false
      /\ isListeningForSTT (script (call Simple.onend s)) = false
      /\ (forall m, mediaStreamSource (script s) = Some m ->
          m ∉ streams (browser (call Simple.onend s)))).
Proof.
  split; [split; [|split]|split; [split|split; [|split]]].
  - apply called_keeps_capture, toggle_keeps_capture.
  - apply toggle_keeps_buffer.
  - apply (called_keeps_timers _ s toggle_keeps_timers).
  - apply called_keeps_capture, onend_keeps_capture.
  - apply onend_clears.
  - intros e. apply onerror_cleans_up.
  - intros e. apply simple_onerror_cleans_up.
  - apply simple_onend_cleans_up.
Qed.

Lemma cleanup_in_session :
  mediaStreamSource (script in_session) = Some 2
  /\ streams (browser in_session) = [2]
  /\ (2 ∉ streams (browser (call (Assistant.onerror (lit "no-speech")) in_session)))
  /\ (2 ∉ streams (browser (call Simple.onend in_session))).
Proof.
  assert (Hm : mediaStreamSource (script in_session) = Some 2) by (vm_compute; reflexivity).
  destruct (cleanup_is_in_the_callbacks in_session) as (_ & _ & He & _ & Hs).
  split; [exact Hm|]. split; [vm_compute; reflexivity|].
  split.
  - exact (proj2 (proj2 (proj2 (proj2 (He (lit "no-speech"))))) 2 Hm).
  - exact (proj2 (proj2 (proj2 (proj2 Hs))) 2 Hm).
Defined.

(** In the richer variant the ended callback leaves the capture source
    running and the button in its active state, and the error callback is
    the one that tears down. *)
Lemma cleanup_not_only_in_onend :
  streams (browser in_session) = [2]
  /\ button_active (dom in_session) = true
  /\ streams (browser (Assistant.step in_session Assistant.RecEnd)) = [2]
  /\ isVisualizerActive (script (Assistant.step in_session Assistant.RecEnd)) = true
  /\ button_active (dom (Assistant.step in_session Assistant.RecEnd)) = true
  /\ released (Assistant.step in_session Assistant.RecEnd) = []
  /\ streams (browser (Assistant.step in_session (Assistant.RecError (lit "no-speech")))) = []
  /\ button_active (dom (Assistant.step in_session (Assistant.RecError (lit "no-speech"))))
     = false
  /\ released (Assistant.step in_session (Assistant.RecError (lit "no-speech")))
     = [TrackStop 2; Disconnect 2; CloseContext 1].
Proof. repeat (split; [vm_compute; reflexivity|]). vm_compute; reflexivity. Qed.

(** ** Starting twice *)

(** The session's recognition fails before the capture request is
    answered, the user clicks again, and both requests are then granted. *)
Definition restart_before_grant : list Assistant.event :=
  [Assistant.Click; Assistant.RecStart; Assistant.RecError (lit "network"); Assistant.RecEnd;
   Assistant.Click; Assistant.MediaSettled true; Assistant.MediaSettled true].

(** C2. [startVisualizer] guards against a second start with
    [isVisualizerActive], which is only set once the capture request is
    granted.  Two starts before the first grant give two live capture
    streams of which the script holds one; the teardown stops that one, and
    the page is back to idle, both flags off, with the other stream still
    live.  The same happens when [toggle] is called twice in a row: the
    second call starts again, recognition refuses it, and one stream and
    one audio context are never released. *)
Theorem second_start_leaks_capture :
  (streams (browser (Assistant.run (Assistant.boot desktop) restart_before_grant)) = [3; 4]
   /\ mediaStreamSource (script (Assistant.run (Assistant.boot desktop) restart_before_grant))
      = Some 4
   /\ isVisualizerActive (script (Assistant.run (Assistant.boot desktop) restart_before_grant))
      = true)
  /\ (let s := Assistant.run (Assistant.boot desktop)
                 (restart_before_grant
                  ++ [Assistant.RecStart; Assistant.RecError (lit "no-speech"); Assistant.RecEnd])
      in
      isListeningForSTT (script s) = false
      /\ isVisualizerActive (script s) = false
      /\ engine (browser s) = Inactive
      /\ mediaStreamSource (script s) = None
      /\ streams (browser s) = [3])
  /\ (let s := Assistant.run
                 (call toggleSTTAndVisualizer (call toggleSTTAndVisualizer (Assistant.boot desktop)))
                 [Assistant.MediaSettled true; Assistant.MediaSettled true; Assistant.RecStart;
                  Assistant.RecError (lit "no-speech"); Assistant.RecEnd]
      in
      In (Uncaught InvalidStateError) (log s)
      /\ isListeningForSTT (script s) = false
      /\ isVisualizerActive (script s) = false
      /\ engine (browser s) = Inactive
      /\ streams (browser s) = [3]
      /\ contexts (browser s) = [1]).
Proof.
  split; [|split].
  - repeat (split; [vm_compute; reflexivity|]). vm_compute; reflexivity.
  - repeat (split; [vm_compute; reflexivity|]). vm_compute; reflexivity.
  - split; [vm_compute; tauto|].
    repeat (split; [vm_compute; reflexivity|]). vm_compute; reflexivity.
Qed.

(** * More of the script *)

(** ** The backend client *)

(** [sendToBackend] does nothing at all with a text that is empty or only
    white space; any other text is sent as it was given, not trimmed, after
    the display is set to "Thinking...". *)
Theorem sendToBackend_skips_blank (text : jsstring) (s : State) :
  (trim text = [] -> Assistant.sendToBackend text s = Ok tt s)
  /\ (trim text <> [] ->
      Assistant.sent (state_of (Assistant.sendToBackend text s)) = Assistant.sent s ++ [text]
      /\ transcript (dom (state_of (Assistant.sendToBackend text s))) = JStr Assistant.thinking
      /\ fetches (browser (state_of (Assistant.sendToBackend text s)))
         = S (fetches (browser s))).
Proof.
  unfold Assistant.sendToBackend. split.
  - intros ->. simpl. now rewrite orb_true_r.
  - intros Hne.
    assert (Ht : nonempty (trim text) = true)
      by (destruct (trim text) eqn:E; [congruence | reflexivity]).
    assert (Hx : nonempty text = true) by (destruct text; [now vm_compute in Hne | reflexivity]).
    rewrite Ht, Hx. destruct_state s. unfold Assistant.sent. js_run.
    rewrite omap_app. auto.
Qed.

Lemma sendToBackend_blank_and_padded :
  trim (lit "  ") = []
  /\ Assistant.sendToBackend (lit "  ") in_session = Ok tt in_session
  /\ trim (lit " hi ") <> []
  /\ Assistant.sent (state_of (Assistant.sendToBackend (lit " hi ") in_session)) = [lit " hi "].
Proof.
  assert (H1 : trim (lit "  ") = []) by (vm_compute; reflexivity).
  assert (H2 : trim (lit " hi ") <> []) by (vm_compute; discriminate).
  split; [exact H1|].
  split; [exact (proj1 (sendToBackend_skips_blank (lit "  ") in_session) H1)|].
  split; [exact H2|].
  destruct (proj2 (sendToBackend_skips_blank (lit " hi ") in_session) H2) as (-> & _).
  vm_compute. reflexivity.
Defined.

(** A successful reply whose body has a [response] is shown and spoken
    only if that value is truthy; an empty string, zero, [false] or [null]
    in its place gets the "no valid response" message like a missing one. *)
Theorem reply_needs_truthy_response (s : State) (statusText : jsstring) (v answer : json) :
  get_response v = Some answer ->
  transcript (dom (call (async (Assistant.sendToBackend_resumed
                                  (Response true statusText (Some v)))) s))
  = (if truthy answer then answer else JStr Assistant.no_valid_response)
  /\ Assistant.spoken (call (async (Assistant.sendToBackend_resumed
                                      (Response true statusText (Some v)))) s)
     = Assistant.spoken s
       ++ match speech (browser s) with
          | Some _ => [if truthy answer then answer else JStr Assistant.no_valid_response]
          | None => []
          end.
Proof.
  intros Hr.
  assert (Hv : truthy v = true) by (destruct v; try discriminate Hr; reflexivity).
  destruct_state s.
  unfold Assistant.sendToBackend_resumed, Assistant.speakText, Assistant.spoken.
  rewrite Hv, Hr.
  destruct (truthy answer), sp as [[]|]; js_run; rewrite ?omap_app; simpl;
    rewrite ?app_nil_r; auto.
Qed.

Lemma reply_with_empty_response :
  get_response (JObj [(lit "response", JStr [])]) = Some (JStr [])
  /\ transcript (dom (call (async (Assistant.sendToBackend_resumed
                                     (Response true (lit "OK")
                                        (Some (JObj [(lit "response", JStr [])])))))
                        in_session))
     = JStr Assistant.no_valid_response.
Proof.
  assert (H : get_response (JObj [(lit "response", JStr [])]) = Some (JStr []))
    by (vm_compute; reflexivity).
  split; [exact H|].
  rewrite (proj1 (reply_needs_truthy_response in_session (lit "OK") _ _ H)). reflexivity.
Defined.

(** [speakText] cancels what is being spoken before it speaks, and where
    the browser has no speech synthesis it speaks nothing and only warns. *)
Theorem speakText_cancels_first (text : json) (s : State) :
  log (state_of (Assistant.speakText text s))
  = log s ++ match speech (browser s) with
             | Some true => [CancelSpeech; Speak text]
             | Some false => [Speak text]
             | None => [Console (lit "Text-to-Speech not supported in this browser.")]
             end
  /\ speech (browser (state_of (Assistant.speakText text s)))
     = match speech (browser s) with Some _ => Some true | None => None end.
Proof.
  destruct_state s. unfold Assistant.speakText.
  destruct sp as [[]|]; js_run; rewrite <- ?app_assoc; auto.
Qed.

(** ** Invariants of the richer variant *)

Lemma run_invariant (P : State -> Prop) :
  (forall s e, P s -> P (Assistant.step s e)) ->
  forall es s, P s -> P (Assistant.run s es).
Proof.
  intros Hstep es. induction es as [|e es IH]; intros s Hs; [exact Hs|].
  rewrite run_cons. apply IH, Hstep, Hs.
Qed.

(** Nothing can happen on the page: the button is disabled and the browser
    has nothing pending for the script. *)
Definition inert (s : State) : Prop :=
  button_disabled (dom s) = true
  /\ engine (browser s) = Inactive
  /\ media_requests (browser s) = 0
  /\ frames (browser s) = 0
  /\ timers (browser s) = []
  /\ fetches (browser s) = 0.

Lemma step_inert s e :
  inert s ->
  inert (Assistant.step s e)
  /\ script (Assistant.step s e) = script s
  /\ dom (Assistant.step s e) = dom s
  /\ log (Assistant.step s e) = log s
  /\ streams (browser (Assistant.step s e)) = streams (browser s).
Proof.
  intros (Hd & He & Hm & Hf & Ht & Hq). unfold inert.
  destruct e; simpl; rewrite ?Hd, ?He, ?Hm, ?Hf, ?Ht, ?Hq, ?andb_false_r; simpl; auto 10.
  destruct_state s. simpl in *. destruct sp as [[]|]; simpl; auto 10.
Qed.

(** Where the browser has no speech recognition the page stays as the load
    left it, whatever happens: the button is disabled, so no click starts
    anything; no recognition session, no capture request, no stream, no
    request to the backend. *)
Theorem unsupported_page_stays_inert (cfg : Config) (es : list Assistant.event) :
  stt_supported cfg = false ->
  script (Assistant.run (Assistant.boot cfg) es) = script (Assistant.boot cfg)
  /\ dom (Assistant.run (Assistant.boot cfg) es) = dom (Assistant.boot cfg)
  /\ log (Assistant.run (Assistant.boot cfg) es) = log (Assistant.boot cfg)
  /\ button_disabled (dom (Assistant.run (Assistant.boot cfg) es)) = true
  /\ engine (browser (Assistant.run (Assistant.boot cfg) es)) = Inactive
  /\ streams (browser (Assistant.run (Assistant.boot cfg) es)) = []
  /\ Assistant.sent (Assistant.run (Assistant.boot cfg) es) = [].
Proof.
  intros Hu.
  assert (H0 : inert (Assistant.boot cfg)
               /\ streams (browser (Assistant.boot cfg)) = []
               /\ Assistant.sent (Assistant.boot cfg) = []).
  { destruct cfg as [[] st []]; simpl in Hu; subst st; vm_compute; auto 10. }
  destruct H0 as (Hin & Hst & Hse).
  pose proof (run_invariant
    (fun s => inert s /\ script s = script (Assistant.boot cfg)
              /\ dom s = dom (Assistant.boot cfg) /\ log s = log (Assistant.boot cfg)
              /\ streams (browser s) = [])) as Hrun.
  destruct (Hrun) with (es := es) (s := Assistant.boot cfg) as (Hi & Hs & Hd & Hl & Hx).
  - intros s e (Hi & Hs & Hd & Hl & Hx).
    destruct (step_inert s e Hi) as (Hi' & Hs' & Hd' & Hl' & Hx').
    rewrite Hs', Hd', Hl', Hx'. auto.
  - auto.
  - destruct Hi as (Hb & He & _). unfold Assistant.sent in *. rewrite Hl. auto 10.
Qed.

Lemma unsupported_page_ignores_clicks :
  stt_supported (MkConfig false false true) = false
  /\ engine (browser (Assistant.run (Assistant.boot (MkConfig false false true))
                        [Assistant.Click; Assistant.MediaSettled true; Assistant.RecStart]))
     = Inactive.
Proof.
  split; [reflexivity|].
  exact (proj1 (proj2 (proj2 (proj2 (proj2
    (unsupported_page_stays_inert (MkConfig false false true)
       [Assistant.Click; Assistant.MediaSettled true; Assistant.RecStart] eq_refl)))))).
Defined.

(** *** The listening flag and the recognition session *)

Definition session_untouched (s s' : State) : Prop :=
  isListeningForSTT (script s') = isListeningForSTT (script s)
  /\ engine (browser s') = engine (browser s).

Lemma session_untouched_refl s : session_untouched s s.
Proof. unfold session_untouched. auto. Qed.

Lemma session_untouched_trans s1 s2 s3 :
  session_untouched s1 s2 -> session_untouched s2 s3 -> session_untouched s1 s3.
Proof. unfold session_untouched. intros (-> & ->) (-> & ->). auto. Qed.

Lemma fresh_keeps_session : keeps session_untouched fresh.
Proof. intros s. destruct_state s. unfold session_untouched. simpl. auto. Qed.

Ltac keeps_session :=
  keeps_structure session_untouched_refl session_untouched_trans;
  first
    [ apply fresh_keeps_session
    | match goal with |- keeps _ (modify _) => apply keeps_modify end;
      intros s; destruct_state s;
      unfold session_untouched; js_setters; js_unfold; simpl; auto ].

Lemma speakText_keeps_session t : keeps session_untouched (Assistant.speakText t).
Proof. unfold Assistant.speakText. keeps_session. Qed.

Lemma sendToBackend_keeps_session t : keeps session_untouched (Assistant.sendToBackend t).
Proof. unfold Assistant.sendToBackend. keeps_session. Qed.

Lemma sendToBackend_resumed_keeps_session r :
  keeps session_untouched (Assistant.sendToBackend_resumed r).
Proof.
  unfold Assistant.sendToBackend_resumed.
  keeps_structure session_untouched_refl session_untouched_trans;
    try apply speakText_keeps_session; keeps_session.
Qed.

Lemma renderVisualizerFrame_keeps_session data :
  keeps session_untouched (renderVisualizerFrame data).
Proof. unfold renderVisualizerFrame, processFrameForVisualizer, style_all. keeps_session. Qed.

Lemma startVisualizer_resumed_keeps_session granted :
  keeps session_untouched (startVisualizer_resumed Assistant.processVisualizerError granted).
Proof.
  unfold startVisualizer_resumed, Assistant.processVisualizerError.
  keeps_structure session_untouched_refl session_untouched_trans;
    try apply speakText_keeps_session; keeps_session.
Qed.

Lemma pause_elapsed_keeps_session : keeps session_untouched Assistant.pause_elapsed.
Proof.
  unfold Assistant.pause_elapsed.
  keeps_structure session_untouched_refl session_untouched_trans;
    try apply sendToBackend_keeps_session; keeps_session.
Qed.

Lemma onresult_keeps_session ev : keeps session_untouched (Assistant.onresult ev).
Proof. unfold Assistant.onresult, setTimeout. keeps_session. Qed.

Lemma called_keeps_session m s : keeps session_untouched m -> session_untouched s (call m s).
Proof.
  intros H. apply (keeps_call _ session_untouched_trans); [exact H|].
  intros s0 e. destruct_state s0. unfold session_untouched. simpl. auto.
Qed.

Lemma async_keeps_session m : keeps session_untouched m -> keeps session_untouched (async m).
Proof.
  intros H. unfold async.
  apply (keeps_try_catch _ session_untouched_trans); [exact H|].
  intros e s. destruct_state s. unfold session_untouched. simpl. auto.
Qed.

Lemma toggle_session s :
  isListeningForSTT (script (call toggleSTTAndVisualizer s)) = isListeningForSTT (script s)
  /\ (isListeningForSTT (script s) = true ->
      engine (browser (call toggleSTTAndVisualizer s)) = engine (browser s)).
Proof.
  destruct_state s.
  unfold toggleSTTAndVisualizer, recognition_stop, recognition_start, startVisualizer,
    createDOMElementsForVisualizer, style_all. js_run.
  destruct li, rc, en, va; simpl; split; congruence.
Qed.

Lemma onstart_session s :
  engine (browser (call Assistant.onstart s)) = engine (browser s).
Proof.
  destruct_state s. unfold Assistant.onstart. js_run.
  destruct tm, sp as [[]|]; reflexivity.
Qed.

Lemma listening_false_onend s : isListeningForSTT (script (call Assistant.onend s)) = false.
Proof. apply onend_clears. Qed.

Definition listening_means_started (s : State) : Prop :=
  isListeningForSTT (script s) = true -> engine (browser s) = Started.

Lemma step_listening s e :
  listening_means_started s -> listening_means_started (Assistant.step s e).
Proof.
  unfold listening_means_started. intros Hs.
  assert (Hk : forall s', session_untouched s s' ->
                 isListeningForSTT (script s') = true -> engine (browser s') = Started).
  { intros s' (Hl & He). rewrite Hl, He. exact Hs. }
  destruct e as [|granted|data| |ev|err| |h|r|]; cbn [Assistant.step].
  - destruct (button_in_main (dom s) && negb (button_disabled (dom s))); [|exact Hs].
    destruct (toggle_session s) as (Hl & He). rewrite Hl. intros H. rewrite (He H). auto.
  - destruct (media_requests (browser s)) as [|n]; [exact Hs|].
    apply Hk. eapply session_untouched_trans;
      [|apply called_keeps_session, async_keeps_session, startVisualizer_resumed_keeps_session].
    destruct_state s. split; reflexivity.
  - destruct (frames (browser s)) as [|n]; [exact Hs|].
    destruct (decide (length data = 32)); [|exact Hs].
    apply Hk. eapply session_untouched_trans;
      [|apply called_keeps_session, renderVisualizerFrame_keeps_session].
    destruct_state s. split; reflexivity.
  - destruct (engine (browser s)) eqn:He; try (rewrite He; exact Hs).
    intros _. rewrite onstart_session. destruct_state s. reflexivity.
  - destruct (engine (browser s)) eqn:He; try (rewrite He; exact Hs).
    apply Hk, called_keeps_session, onresult_keeps_session.
  - destruct (engine (browser s)) eqn:He; try (rewrite He; exact Hs);
      rewrite (proj1 (proj2 (proj2 (proj2 (onerror_cleans_up err s))))); discriminate.
  - destruct (engine (browser s)) eqn:He; try (rewrite He; exact Hs);
      rewrite listening_false_onend; discriminate.
  - destruct (bool_decide (h ∈ timers (browser s))); [|exact Hs].
    apply Hk. eapply session_untouched_trans;
      [|apply called_keeps_session, pause_elapsed_keeps_session].
    destruct_state s. split; reflexivity.
  - destruct (fetches (browser s)) as [|n]; [exact Hs|].
    apply Hk. eapply session_untouched_trans;
      [|apply called_keeps_session, async_keeps_session, sendToBackend_resumed_keeps_session].
    destruct_state s. split; reflexivity.
  - destruct (speech (browser s)) as [[]|]; exact Hs.
Qed.

(** From page load on, whenever the listening flag is set a recognition
    session has started and not ended; so a click in that state always
    reaches [recognition.stop()] on a running session.  (The converse does
    not hold: after an error the flag is cleared while the session is still
    to end.) *)
Theorem listening_flag_means_session (cfg : Config) (es : list Assistant.event) :
  (isListeningForSTT (script (Assistant.run (Assistant.boot cfg) es)) = true ->
   engine (browser (Assistant.run (Assistant.boot cfg) es)) = Started)
  /\ isListeningForSTT
       (script (Assistant.run (Assistant.boot desktop)
                  [Assistant.Click; Assistant.RecStart; Assistant.RecError (lit "network")]))
     = false
  /\ engine
       (browser (Assistant.run (Assistant.boot desktop)
                   [Assistant.Click; Assistant.RecStart; Assistant.RecError (lit "network")]))
     = Started.
Proof.
  split; [|split; vm_compute; reflexivity].
  apply (run_invariant listening_means_started step_listening).
  destruct cfg as [[] [] []]; vm_compute; discriminate.
Qed.

Lemma listening_in_session :
  isListeningForSTT (script (Assistant.run (Assistant.boot desktop)
                               [Assistant.Click; Assistant.MediaSettled true; Assistant.RecStart]))
  = true
  /\ engine (browser (Assistant.run (Assistant.boot desktop)
                        [Assistant.Click; Assistant.MediaSettled true; Assistant.RecStart]))
     = Started.
Proof.
  assert (H : isListeningForSTT
                (script (Assistant.run (Assistant.boot desktop)
                           [Assistant.Click; Assistant.MediaSettled true; Assistant.RecStart]))
              = true) by (vm_compute; reflexivity).
  split; [exact H|].
  exact (proj1 (listening_flag_means_session desktop
                  [Assistant.Click; Assistant.MediaSettled true; Assistant.RecStart]) H).
Defined.

(** *** What reaches the backend *)

Definition sent_untouched (s s' : State) : Prop := Assistant.sent s' = Assistant.sent s.

Lemma sent_untouched_refl s : sent_untouched s s.
Proof. reflexivity. Qed.

Lemma sent_untouched_trans s1 s2 s3 :
  sent_untouched s1 s2 -> sent_untouched s2 s3 -> sent_untouched s1 s3.
Proof. unfold sent_untouched. congruence. Qed.

Lemma fresh_keeps_sent : keeps sent_untouched fresh.
Proof. intros s. destruct_state s. reflexivity. Qed.

Ltac keeps_sent :=
  keeps_structure sent_untouched_refl sent_untouched_trans;
  first
    [ apply fresh_keeps_sent
    | match goal with |- keeps _ (modify _) => apply keeps_modify end;
      intros s; destruct_state s;
      unfold sent_untouched, Assistant.sent; js_setters; js_unfold; simpl;
      rewrite ?omap_app; simpl; rewrite ?app_nil_r; reflexivity ].

Lemma speakText_keeps_sent t : keeps sent_untouched (Assistant.speakText t).
Proof. unfold Assistant.speakText. keeps_sent. Qed.

Lemma stopVisualizer_keeps_sent : keeps sent_untouched stopVisualizer.
Proof. unfold stopVisualizer, style_all. keeps_sent. Qed.

Lemma toggle_keeps_sent : keeps sent_untouched toggleSTTAndVisualizer.
Proof.
  unfold toggleSTTAndVisualizer, recognition_stop, recognition_start, startVisualizer,
    createDOMElementsForVisualizer, style_all.
  keeps_sent.
Qed.

Lemma sendToBackend_resumed_keeps_sent r : keeps sent_untouched (Assistant.sendToBackend_resumed r).
Proof.
  unfold Assistant.sendToBackend_resumed.
  keeps_structure sent_untouched_refl sent_untouched_trans;
    try apply speakText_keeps_sent; keeps_sent.
Qed.

Lemma startVisualizer_resumed_keeps_sent granted :
  keeps sent_untouched (startVisualizer_resumed Assistant.processVisualizerError granted).
Proof.
  unfold startVisualizer_resumed, Assistant.processVisualizerError.
  keeps_structure sent_untouched_refl sent_untouched_trans;
    try apply speakText_keeps_sent; keeps_sent.
Qed.

Lemma renderVisualizerFrame_keeps_sent data : keeps sent_untouched (renderVisualizerFrame data).
Proof. unfold renderVisualizerFrame, processFrameForVisualizer, style_all. keeps_sent. Qed.

Lemma onstart_keeps_sent : keeps sent_untouched Assistant.onstart.
Proof. unfold Assistant.onstart. keeps_sent. Qed.

Lemma onresult_keeps_sent ev : keeps sent_untouched (Assistant.onresult ev).
Proof. unfold Assistant.onresult, setTimeout. keeps_sent. Qed.

Lemma onerror_keeps_sent e : keeps sent_untouched (Assistant.onerror e).
Proof.
  unfold Assistant.onerror.
  keeps_structure sent_untouched_refl sent_untouched_trans;
    try apply speakText_keeps_sent; try apply stopVisualizer_keeps_sent; keeps_sent.
Qed.

Lemma called_keeps_sent m s : keeps sent_untouched m -> sent_untouched s (call m s).
Proof.
  intros H. unfold call. specialize (H s).
  destruct (m s) as [a s'|e s']; simpl in *; [exact H|].
  eapply sent_untouched_trans; [exact H|].
  destruct_state s'. unfold sent_untouched, Assistant.sent. simpl.
  rewrite ?omap_app; simpl; rewrite ?app_nil_r; reflexivity.
Qed.

Lemma async_keeps_sent m : keeps sent_untouched m -> keeps sent_untouched (async m).
Proof.
  intros H. unfold async.
  apply (keeps_try_catch _ sent_untouched_trans); [exact H|].
  intros e s. destruct_state s. unfold sent_untouched, Assistant.sent. simpl.
  rewrite ?omap_app; simpl; rewrite ?app_nil_r; reflexivity.
Qed.

(** The ended callback sends like the timer callback does. *)
Lemma onend_sent s :
  Assistant.sent (call Assistant.onend s)
  = Assistant.sent s ++ (if nonempty (trim (sttFinalTranscript (script s)))
                         then [trim (sttFinalTranscript (script s))] else []).
Proof.
  destruct (nonempty (trim (sttFinalTranscript (script s)))) eqn:Ht.
  - destruct_state s. simpl in *.
    unfold Assistant.onend, call, bind, assign, read, modify. simpl.
    rewrite clearTimeout_spec. simpl. rewrite Ht. unfold async, try_catch.
    rewrite (sendToBackend_trimmed _ _ Ht).
    unfold Assistant.sent, modify, on_script, on_browser, on_log, on_dom; cbn.
    now rewrite omap_app.
  - destruct_state s. simpl in *.
    unfold Assistant.onend, call, bind, assign, read, modify. simpl.
    rewrite clearTimeout_spec. simpl. rewrite Ht.
    unfold ret, on_script, Assistant.sent. simpl. now rewrite app_nil_r.
Qed.

(** A text fit for the backend: not empty, no white space around it. *)
Definition tidy (t : jsstring) : Prop := t <> [] /\ trim t = t.

Lemma tidy_trim b : nonempty (trim b) = true -> tidy (trim b).
Proof.
  intros H. split; [destruct (trim b); [discriminate | congruence] | apply trim_idem].
Qed.

Lemma Forall_tidy_snoc l b :
  Forall tidy l ->
  Forall tidy (l ++ (if nonempty (trim b) then [trim b] else [])).
Proof.
  intros Hl. apply Forall_app. split; [exact Hl|].
  destruct (nonempty (trim b)) eqn:Ht; [|constructor].
  constructor; [now apply tidy_trim | constructor].
Qed.

Lemma step_sent_tidy s e :
  Forall tidy (Assistant.sent s) -> Forall tidy (Assistant.sent (Assistant.step s e)).
Proof.
  intros Hs.
  assert (Hk : forall s', sent_untouched s s' -> Forall tidy (Assistant.sent s'))
    by (intros s' ->; exact Hs).
  assert (Hb : forall f, sent_untouched s (on_browser f s))
    by (intros f; destruct_state s; reflexivity).
  destruct e as [|granted|data| |ev|err| |h|r|]; cbn [Assistant.step].
  - destruct (button_in_main (dom s) && negb (button_disabled (dom s))); [|exact Hs].
    apply Hk, called_keeps_sent, toggle_keeps_sent.
  - destruct (media_requests (browser s)) as [|n]; [exact Hs|].
    apply Hk. eapply sent_untouched_trans; [apply Hb|].
    apply called_keeps_sent, async_keeps_sent, startVisualizer_resumed_keeps_sent.
  - destruct (frames (browser s)) as [|n]; [exact Hs|].
    destruct (decide (length data = 32)); [|exact Hs].
    apply Hk. eapply sent_untouched_trans; [apply Hb|].
    apply called_keeps_sent, renderVisualizerFrame_keeps_sent.
  - destruct (engine (browser s)); try exact Hs.
    apply Hk. eapply sent_untouched_trans; [apply Hb|].
    apply called_keeps_sent, onstart_keeps_sent.
  - destruct (engine (browser s)); try exact Hs.
    apply Hk, called_keeps_sent, onresult_keeps_sent.
  - destruct (engine (browser s)); try exact Hs;
      apply Hk, called_keeps_sent, onerror_keeps_sent.
  - destruct (engine (browser s)); try exact Hs;
      rewrite onend_sent; rewrite (Hb (set_engine Inactive));
      now apply Forall_tidy_snoc.
  - destruct (bool_decide (h ∈ timers (browser s))); [|exact Hs].
    rewrite (proj1 (pause_elapsed_sent _)). rewrite (Hb _). now apply Forall_tidy_snoc.
  - destruct (fetches (browser s)) as [|n]; [exact Hs|].
    apply Hk. eapply sent_untouched_trans; [apply Hb|].
    apply called_keeps_sent, async_keeps_sent, sendToBackend_resumed_keeps_sent.
  - destruct (speech (browser s)) as [[]|]; exact Hs.
Qed.

(** From page load on, every text that has gone to the backend is not
    empty and has no white space at either end: only the timer callback
    and the ended callback send, and both send the trimmed buffer, if it
    is not empty. *)
Theorem backend_gets_tidy_text (cfg : Config) (es : list Assistant.event) :
  Forall (fun t => t <> [] /\ trim t = t) (Assistant.sent (Assistant.run (Assistant.boot cfg) es)).
Proof.
  apply (run_invariant (fun s => Forall tidy (Assistant.sent s)) step_sent_tidy).
  destruct cfg as [[] [] []]; vm_compute; constructor.
Qed.

(** ** The capture request is answered *)

(** When the microphone is refused, "Mic Access Denied" is shown, the
    button is put back in its idle state and the visualizer stays off; no
    stream is acquired.  The recognition session is not touched: nothing
    stops it, and the listening flag stays as it was. *)
Theorem capture_refused_keeps_recognition (s : State) :
  let s' := call (async (startVisualizer_resumed Assistant.processVisualizerError false)) s in
  transcript (dom s') = JStr (lit "Mic Access Denied")
  /\ isVisualizerActive (script s') = false
  /\ button_in_main (dom s') = true
  /\ button_active (dom s') = false
  /\ streams (browser s') = streams (browser s)
  /\ mediaStreamSource (script s') = mediaStreamSource (script s)
  /\ engine (browser s') = engine (browser s)
  /\ isListeningForSTT (script s') = isListeningForSTT (script s)
  /\ ~ In RecognitionStop (drop (length (log s)) (log s')).
Proof.
  destruct_state s.
  unfold startVisualizer_resumed, Assistant.processVisualizerError, Assistant.speakText.
  destruct sp as [[]|], bm; js_run; rewrite <- ?app_assoc, drop_app_length; simpl;
    repeat split; auto; intuition discriminate.
Qed.

(** When the microphone is granted after the audio context has been closed
    (the session was torn down while the request was pending), the script
    takes the error path: it shows "Mic Access Denied" and leaves the
    visualizer off, while the stream just granted is live and held by
    nothing. *)
Theorem grant_after_teardown_is_dropped (s : State) :
  audioContext (script s) = None ->
  let s' := call (async (startVisualizer_resumed Assistant.processVisualizerError true)) s in
  transcript (dom s') = JStr (lit "Mic Access Denied")
  /\ isVisualizerActive (script s') = false
  /\ streams (browser s') = streams (browser s) ++ [next_id (browser s)]
  /\ mediaStreamSource (script s') = mediaStreamSource (script s)
  /\ released s' = released s.
Proof.
  intros Hac. destruct_state s. simpl in Hac. subst ac.
  unfold startVisualizer_resumed, Assistant.processVisualizerError, Assistant.speakText, released.
  destruct sp as [[]|], bm; js_run; rewrite <- ?app_assoc, ?List.filter_app; simpl;
    rewrite ?app_nil_r; repeat split; auto.
Qed.

Definition torn_down_while_asking : State :=
  Assistant.run (Assistant.boot desktop)
    [Assistant.Click; Assistant.RecStart; Assistant.RecError (lit "network"); Assistant.RecEnd].

Lemma grant_after_network_error :
  audioContext (script torn_down_while_asking) = None
  /\ streams (browser torn_down_while_asking) = []
  /\ streams (browser (call (async (startVisualizer_resumed Assistant.processVisualizerError true))
                         torn_down_while_asking)) = [2]
  /\ mediaStreamSource
       (script (call (async (startVisualizer_resumed Assistant.processVisualizerError true))
                  torn_down_while_asking)) = None.
Proof.
  assert (H : audioContext (script torn_down_while_asking) = None) by (vm_compute; reflexivity).
  destruct (grant_after_teardown_is_dropped torn_down_while_asking H) as (_ & _ & Hs & Hm & _).
  split; [exact H|]. split; [vm_compute; reflexivity|].
  split; [rewrite Hs; vm_compute; reflexivity | rewrite Hm; vm_compute; reflexivity].
Defined.

(** When the microphone is granted and the audio context is there, the
    script takes the new stream as its source, sets the visualizer flag and
    schedules one render callback. *)
Theorem grant_starts_rendering (s : State) (c : nat) :
  audioContext (script s) = Some c ->
  let s' := call (async (startVisualizer_resumed Assistant.processVisualizerError true)) s in
  mediaStreamSource (script s') = Some (next_id (browser s))
  /\ streams (browser s') = streams (browser s) ++ [next_id (browser s)]
  /\ isVisualizerActive (script s') = true
  /\ frames (browser s') = S (frames (browser s))
  /\ log s' = log s
  /\ dom s' = dom s.
Proof.
  intros Hac. destruct_state s. simpl in Hac. subst ac.
  unfold startVisualizer_resumed. js_run. auto 10.
Qed.

Lemma grant_while_asking :
  audioContext (script (Assistant.run (Assistant.boot desktop) [Assistant.Click])) = Some 1
  /\ isVisualizerActive
       (script (call (async (startVisualizer_resumed Assistant.processVisualizerError true))
                  (Assistant.run (Assistant.boot desktop) [Assistant.Click]))) = true.
Proof.
  assert (H : audioContext (script (Assistant.run (Assistant.boot desktop) [Assistant.Click]))
              = Some 1) by (vm_compute; reflexivity).
  split; [exact H|].
  exact (proj1 (proj2 (proj2 (grant_starts_rendering _ 1 H)))).
Defined.

(** ** What the display shows while speech comes in *)

(** The text one result event holds that is not final yet. *)
Definition interim_text (ev : SpeechRecognitionEvent) : jsstring :=
  concat (transcript0 <$> List.filter (fun r => negb (isFinal r)) (delivered ev)).

Lemma collect_loop_interim rs : forall interim final,
  fst (foldl (fun acc r =>
                if isFinal r then (fst acc, snd acc ++ transcript0 r)
                else (fst acc ++ transcript0 r, snd acc))
             (interim, final) rs)
  = interim ++ concat (transcript0 <$> List.filter (fun r => negb (isFinal r)) rs).
Proof.
  induction rs as [|r rs IH]; intros interim final; simpl.
  - now rewrite app_nil_r.
  - destruct (isFinal r); simpl; rewrite IH; [reflexivity | now rewrite <- app_assoc].
Qed.

Lemma collect_interim ev : fst (collect ev) = interim_text ev.
Proof. unfold collect, interim_text, delivered. now rewrite collect_loop_interim. Qed.

(** In the richer variant a result event leaves on display everything
    buffered so far, the event's own final text included, followed by the
    event's interim text; results before [resultIndex] play no part. *)
Theorem onresult_shows_buffer_then_interim (ev : SpeechRecognitionEvent) (s : State) :
  transcript (dom (call (Assistant.onresult ev) s))
  = JStr (sttFinalTranscript (script (call (Assistant.onresult ev) s)) ++ interim_text ev)
  /\ sttFinalTranscript (script (call (Assistant.onresult ev) s))
     = sttFinalTranscript (script s) ++ appended ev.
Proof.
  split; [|apply onresult_buffer].
  rewrite <- collect_interim.
  destruct_state s. unfold Assistant.onresult. js_run.
  destruct tm; simpl; destruct (nonempty (collect ev).2); reflexivity.
Qed.

(** In the simpler variant a result event shows its final text if it has
    any, and its interim text otherwise; nothing is accumulated from one
    event to the next, and nothing but the display changes. *)
Theorem simple_onresult_shows_final_or_interim (ev : SpeechRecognitionEvent) (s : State) :
  call (Simple.onresult ev) s
  = on_dom (set_transcript
              (JStr (if nonempty (final_text ev) then final_text ev else interim_text ev))) s.
Proof.
  rewrite <- collect_interim, <- collect_final. reflexivity.
Qed.

(** ** The toggle *)

(** While the listening flag is set, [toggle] asks the running session to
    stop and does nothing else: flags, buffer, timers, capture and page
    are untouched until the engine reports the end. *)
Theorem toggle_while_listening_only_asks_to_stop (s : State) :
  isListeningForSTT (script s) = true ->
  recognition (script s) = true ->
  engine (browser s) <> Inactive ->
  call toggleSTTAndVisualizer s = on_log (fun l => l ++ [RecognitionStop]) s.
Proof.
  intros Hl Hr He. destruct_state s. simpl in *. subst.
  unfold toggleSTTAndVisualizer, recognition_stop. js_run.
  destruct en; [congruence | reflexivity | reflexivity].
Qed.

Lemma toggle_in_session :
  isListeningForSTT (script in_session) = true
  /\ recognition (script in_session) = true
  /\ engine (browser in_session) <> Inactive
  /\ call toggleSTTAndVisualizer in_session = on_log (fun l => l ++ [RecognitionStop]) in_session.
Proof.
  assert (H1 : isListeningForSTT (script in_session) = true) by (vm_compute; reflexivity).
  assert (H2 : recognition (script in_session) = true) by (vm_compute; reflexivity).
  assert (H3 : engine (browser in_session) <> Inactive) by (vm_compute; discriminate).
  split; [exact H1|]. split; [exact H2|]. split; [exact H3|].
  exact (toggle_while_listening_only_asks_to_stop in_session H1 H2 H3).
Defined.

(** While the listening flag is clear, [toggle] starts: unless the
    visualizer is already active it builds one bar per [visualValueCount]
    at half height, takes the button off the page, opens an audio context
    and asks for the microphone; then it starts recognition, which throws
    if a session is already under way. *)
Theorem toggle_while_idle_starts (s : State) :
  isListeningForSTT (script s) = false ->
  recognition (script s) = true ->
  isVisualizerActive (script s) = false ->
  let s' := call toggleSTTAndVisualizer s in
  visualElements (script s') = Some (replicate (visualValueCount (script s)) (Bar 0.5 0.25))
  /\ button_in_main (dom s') = false
  /\ audioContext (script s') = Some (next_id (browser s))
  /\ contexts (browser s') = contexts (browser s) ++ [next_id (browser s)]
  /\ media_requests (browser s') = S (media_requests (browser s))
  /\ match engine (browser s) with
     | Inactive => engine (browser s') = Starting /\ log s' = log s ++ [RecognitionStart]
     | _ => engine (browser s') = engine (browser s)
            /\ log s' = log s ++ [Uncaught InvalidStateError]
     end.
Proof.
  intros Hl Hr Ha. destruct_state s. simpl in *. subst.
  unfold toggleSTTAndVisualizer, recognition_start, startVisualizer,
    createDOMElementsForVisualizer, style_all. js_run.
  rewrite fmap_replicate. destruct en; simpl; auto 10.
Qed.

Lemma toggle_on_fresh_page :
  visualElements (script (call toggleSTTAndVisualizer (Assistant.boot phone)))
  = Some (replicate 16 (Bar 0.5 0.25))
  /\ engine (browser (call toggleSTTAndVisualizer (Assistant.boot phone))) = Starting.
Proof.
  assert (H1 : isListeningForSTT (script (Assistant.boot phone)) = false)
    by (vm_compute; reflexivity).
  assert (H2 : recognition (script (Assistant.boot phone)) = true) by (vm_compute; reflexivity).
  assert (H3 : isVisualizerActive (script (Assistant.boot phone)) = false)
    by (vm_compute; reflexivity).
  destruct (toggle_while_idle_starts (Assistant.boot phone) H1 H2 H3) as (Hv & _ & _ & _ & _ & He).
  split; [exact Hv | exact (proj1 He)].
Defined.

(** ** The render loop *)

Lemma byte_style_bounds (b : byte) :
  (0 <=? number_of_byte b / 255)%float = true
  /\ (number_of_byte b / 255 <=? 1)%float = true
  /\ (0.25 <=? Math_max 0.25 (number_of_byte b / 255))%float = true
  /\ (Math_max 0.25 (number_of_byte b / 255) <=? 1)%float = true.
Proof. destruct b; vm_compute; auto. Qed.

(** A frame rendered while the visualizer is active leaves every bar with
    a scale between 0 and 1 and an opacity between 0.25 and 1. *)
Theorem rendered_bars_within_bounds (s : State) (data : list byte) (bars : list bar) :
  visualElements (script s) = Some bars ->
  length bars = visualValueCount (script s) ->
  length bars <= 32 ->
  length data = 32 ->
  isVisualizerActive (script s) = true ->
  exists bars',
    visualElements (script (call (renderVisualizerFrame data) s)) = Some bars'
    /\ Forall (fun b => (0 <=? scale b)%float = true /\ (scale b <=? 1)%float = true
                        /\ (0.25 <=? opacity b)%float = true
                        /\ (opacity b <=? 1)%float = true) bars'.
Proof.
  intros Hve Hlen H32 Hdata Hact. unfold call.
  rewrite (renderVisualizerFrame_active data s bars Hve Hlen Hact).
  eexists. split; [destruct_state s; reflexivity|].
  apply Forall_lookup. intros i b Hi.
  assert (Hlt : i < length bars).
  { apply lookup_lt_Some in Hi. now rewrite paint_loop_length in Hi. }
  rewrite paint_loop_lookup in Hi by lia.
  destruct (decide (0 <= i < 0 + length bars)) as [_|]; [|lia].
  injection Hi as <-.
  destruct (dataMap_total i) as (j & Hj & Hj32); [lia|].
  destruct (lookup_lt_is_Some_2 data j) as [x Hx]; [lia|].
  unfold painted, sample. rewrite Hj, list_lookup_fmap, Hx. simpl.
  apply byte_style_bounds.
Qed.

Definition loud_frame : list byte := replicate 32 Byte.xff.

Lemma loud_frame_within_bounds :
  isVisualizerActive (script capturing) = true
  /\ exists bars',
       visualElements (script (call (renderVisualizerFrame loud_frame) capturing)) = Some bars'
       /\ Forall (fun b => (scale b <=? 1)%float = true) bars'.
Proof.
  assert (Hve : visualElements (script capturing) = Some (replicate 32 (Bar 0.5 0.25)))
    by (vm_compute; reflexivity).
  assert (Hact : isVisualizerActive (script capturing) = true) by (vm_compute; reflexivity).
  assert (Hlen : length (replicate 32 (Bar 0.5 0.25)) = visualValueCount (script capturing))
    by (vm_compute; reflexivity).
  assert (H32 : length (replicate 32 (Bar 0.5 0.25)) <= 32) by (vm_compute; lia).
  assert (Hd : length loud_frame = 32) by (vm_compute; reflexivity).
  split; [exact Hact|].
  destruct (rendered_bars_within_bounds capturing loud_frame _ Hve Hlen H32 Hd Hact)
    as (bars' & Hv & Hall).
  exists bars'. split; [exact Hv|].
  eapply Forall_impl; [exact Hall|]. intros b Hb. exact (proj1 (proj2 Hb)).
Defined.

(** A render callback that finds the visualizer active schedules itself
    again, so its loop keeps one callback pending; one that finds it
    inactive resets the bars and schedules nothing, so its loop ends. *)
Theorem render_loop_runs_while_active (s : State) (data : list byte) (bars : list bar) (n : nat) :
  visualElements (script s) = Some bars ->
  length bars = visualValueCount (script s) ->
  length data = 32 ->
  frames (browser s) = S n ->
  frames (browser (Assistant.step s (Assistant.Frame data)))
  = (if isVisualizerActive (script s) then S n else n)
  /\ log (Assistant.step s (Assistant.Frame data)) = log s.
Proof.
  intros Hve Hlen Hdata Hfr. cbn [Assistant.step]. rewrite Hfr.
  destruct (decide (length data = 32)) as [_|]; [|congruence].
  set (s1 := on_browser (set_frames n) s).
  assert (H1 : visualElements (script s1) = Some bars) by (destruct_state s; exact Hve).
  assert (H2 : length bars = visualValueCount (script s1)) by (destruct_state s; exact Hlen).
  assert (H3 : isVisualizerActive (script s1) = isVisualizerActive (script s))
    by (destruct_state s; reflexivity).
  assert (H4 : frames (browser s1) = n /\ log s1 = log s) by (destruct_state s; auto).
  destruct H4 as (H4 & H5). rewrite <- H3, <- H4, <- H5. clearbody s1.
  destruct (isVisualizerActive (script s1)) eqn:Hact.
  - unfold call. rewrite (renderVisualizerFrame_active data s1 bars H1 H2 Hact).
    destruct_state s1. simpl. auto.
  - assert (Hr : renderVisualizerFrame data s1
                 = Ok tt (on_script (set_visualElements (Some ((fun _ => Bar 0 0) <$> bars))) s1)).
    { unfold renderVisualizerFrame, bind, read. now rewrite Hact, style_all_spec, H1. }
    unfold call. rewrite Hr. destruct_state s1. simpl. auto.
Qed.

Lemma render_loop_after_teardown :
  frames (browser (call stopVisualizer capturing)) = 1
  /\ isVisualizerActive (script (call stopVisualizer capturing)) = false
  /\ frames (browser (Assistant.step (call stopVisualizer capturing)
                        (Assistant.Frame loud_frame))) = 0.
Proof.
  assert (Hve : visualElements (script (call stopVisualizer capturing))
                = Some (replicate 32 (Bar 0 0))) by (vm_compute; reflexivity).
  assert (Hlen : length (replicate 32 (Bar 0 0))
                 = visualValueCount (script (call stopVisualizer capturing)))
    by (vm_compute; reflexivity).
  assert (Hd : length loud_frame = 32) by (vm_compute; reflexivity).
  assert (Hf : frames (browser (call stopVisualizer capturing)) = 1)
    by (vm_compute; reflexivity).
  assert (Ha : isVisualizerActive (script (call stopVisualizer capturing)) = false)
    by (vm_compute; reflexivity).
  split; [exact Hf|]. split; [exact Ha|].
  rewrite (proj1 (render_loop_runs_while_active _ loud_frame _ 0 Hve Hlen Hd Hf)).
  rewrite Ha. reflexivity.
Defined.

(** *** The visualizer flag and the capture *)

Definition capture_untouched (s s' : State) : Prop :=
  audioContext (script s') = audioContext (script s)
  /\ mediaStreamSource (script s') = mediaStreamSource (script s)
  /\ isVisualizerActive (script s') = isVisualizerActive (script s)
  /\ streams (browser s') = streams (browser s)
  /\ contexts (browser s') = contexts (browser s).

Lemma capture_untouched_refl s : capture_untouched s s.
Proof. unfold capture_untouched. auto 10. Qed.

Lemma capture_untouched_trans s1 s2 s3 :
  capture_untouched s1 s2 -> capture_untouched s2 s3 -> capture_untouched s1 s3.
Proof.
  unfold capture_untouched. intros (-> & -> & -> & -> & ->) (-> & -> & -> & -> & ->). auto 10.
Qed.

Lemma fresh_keeps_capture_untouched : keeps capture_untouched fresh.
Proof. intros s. destruct_state s. unfold capture_untouched. simpl. auto 10. Qed.

Ltac keeps_capture_untouched :=
  keeps_structure capture_untouched_refl capture_untouched_trans;
  first
    [ apply fresh_keeps_capture_untouched
    | match goal with |- keeps _ (modify _) => apply keeps_modify end;
      intros s; destruct_state s;
      unfold capture_untouched; js_setters; js_unfold; simpl; auto 10 ].

Lemma speakText_keeps_capture_untouched t : keeps capture_untouched (Assistant.speakText t).
Proof. unfold Assistant.speakText. keeps_capture_untouched. Qed.

Lemma sendToBackend_keeps_capture_untouched t :
  keeps capture_untouched (Assistant.sendToBackend t).
Proof. unfold Assistant.sendToBackend. keeps_capture_untouched. Qed.

Lemma sendToBackend_resumed_keeps_capture_untouched r :
  keeps capture_untouched (Assistant.sendToBackend_resumed r).
Proof.
  unfold Assistant.sendToBackend_resumed.
  keeps_structure capture_untouched_refl capture_untouched_trans;
    try apply speakText_keeps_capture_untouched; keeps_capture_untouched.
Qed.

Lemma renderVisualizerFrame_keeps_capture_untouched data :
  keeps capture_untouched (renderVisualizerFrame data).
Proof.
  unfold renderVisualizerFrame, processFrameForVisualizer, style_all. keeps_capture_untouched.
Qed.

Lemma pause_elapsed_keeps_capture_untouched : keeps capture_untouched Assistant.pause_elapsed.
Proof.
  unfold Assistant.pause_elapsed.
  keeps_structure capture_untouched_refl capture_untouched_trans;
    try apply sendToBackend_keeps_capture_untouched; keeps_capture_untouched.
Qed.

Lemma onend_keeps_capture_untouched : keeps capture_untouched Assistant.onend.
Proof.
  unfold Assistant.onend.
  keeps_structure capture_untouched_refl capture_untouched_trans;
    try apply sendToBackend_keeps_capture_untouched; keeps_capture_untouched.
Qed.

Lemma onstart_keeps_capture_untouched : keeps capture_untouched Assistant.onstart.
Proof. unfold Assistant.onstart. keeps_capture_untouched. Qed.

Lemma onresult_keeps_capture_untouched ev : keeps capture_untouched (Assistant.onresult ev).
Proof. unfold Assistant.onresult, setTimeout. keeps_capture_untouched. Qed.

Lemma called_keeps_capture_untouched m s :
  keeps capture_untouched m -> capture_untouched s (call m s).
Proof.
  intros H. apply (keeps_call _ capture_untouched_trans); [exact H|].
  intros s0 e. destruct_state s0. unfold capture_untouched. simpl. auto 10.
Qed.

Lemma async_keeps_capture_untouched m :
  keeps capture_untouched m -> keeps capture_untouched (async m).
Proof.
  intros H. unfold async.
  apply (keeps_try_catch _ capture_untouched_trans); [exact H|].
  intros e s. destruct_state s. unfold capture_untouched. simpl. auto 10.
Qed.

(** The audio context the script holds is open, the stream of the source
    node it holds is live, and while the visualizer flag is set it holds
    both. *)
Definition capture_held (s : State) : Prop :=
  (forall c, audioContext (script s) = Some c -> c ∈ contexts (browser s))
  /\ (forall m, mediaStreamSource (script s) = Some m -> m ∈ streams (browser s))
  /\ (isVisualizerActive (script s) = true ->
      is_Some (mediaStreamSource (script s)) /\ is_Some (audioContext (script s))).

Lemma capture_held_untouched s s' : capture_untouched s s' -> capture_held s -> capture_held s'.
Proof.
  unfold capture_held. intros (-> & -> & -> & -> & ->). auto.
Qed.

Ltac membership :=
  repeat match goal with
         | H : Some _ = Some _ |- _ => injection H as H; subst
         | H : bool_decide _ = false |- _ => apply bool_decide_eq_false in H
         | |- _ ∈ _ ++ _ => apply elem_of_app
         end;
  rewrite ?list_elem_of_singleton; try congruence; eauto.

Lemma toggle_capture_held s : capture_held s -> capture_held (call toggleSTTAndVisualizer s).
Proof.
  destruct_state s.
  unfold capture_held, toggleSTTAndVisualizer, recognition_stop, recognition_start,
    startVisualizer, createDOMElementsForVisualizer, style_all. js_run.
  intros (H1 & H2 & H3).
  destruct li, rc, en, va; simpl; (split; [|split]); auto;
    try (intros c Hc; membership; fail); intros; discriminate.
Qed.

Lemma resumed_capture_held granted s :
  capture_held s ->
  capture_held (call (async (startVisualizer_resumed Assistant.processVisualizerError granted)) s).
Proof.
  destruct_state s.
  unfold capture_held, startVisualizer_resumed, Assistant.processVisualizerError,
    Assistant.speakText. js_run.
  intros (H1 & H2 & H3).
  destruct granted, ac, sp as [[]|], bm; simpl; (split; [|split]); auto;
    try (intros; discriminate);
    try (intros m Hm; membership; fail);
    try (intros _; split; eexists; reflexivity).
Qed.

Lemma onerror_capture_held e s : capture_held s -> capture_held (call (Assistant.onerror e) s).
Proof.
  destruct_state s.
  unfold capture_held, Assistant.onerror, Assistant.speakText, stopVisualizer, style_all. js_run.
  intros (H1 & H2 & H3).
  destruct tm, ms, ac, ve, bm; simpl; try (destruct (bool_decide _) eqn:Hd; simpl);
    destruct sp as [[]|]; simpl; (split; [|split]); auto;
    try (intros; discriminate);
    try (intros c Hc; exfalso; apply bool_decide_eq_false in Hd; apply Hd, H1; exact Hc).
Qed.

Lemma step_capture_held s e : capture_held s -> capture_held (Assistant.step s e).
Proof.
  intros Hs.
  assert (Hw : forall f, (forall b, streams (f b) = streams b /\ contexts (f b) = contexts b) ->
                         capture_held (on_browser f s)).
  { intros f Hf. apply (capture_held_untouched s); [|exact Hs].
    destruct s as [sc b d l]. unfold capture_untouched, on_browser. simpl.
    destruct (Hf b) as [-> ->]. auto 10. }
  destruct e as [|granted|data| |ev|err| |h|r|]; cbn [Assistant.step].
  - destruct (button_in_main (dom s) && negb (button_disabled (dom s))); [|exact Hs].
    now apply toggle_capture_held.
  - destruct (media_requests (browser s)) as [|n]; [exact Hs|].
    apply resumed_capture_held, Hw. intros []; auto.
  - destruct (frames (browser s)) as [|n]; [exact Hs|].
    destruct (decide (length data = 32)); [|exact Hs].
    eapply capture_held_untouched;
      [apply called_keeps_capture_untouched, renderVisualizerFrame_keeps_capture_untouched|].
    apply Hw. intros []; auto.
  - destruct (engine (browser s)); try exact Hs.
    eapply capture_held_untouched;
      [apply called_keeps_capture_untouched, onstart_keeps_capture_untouched|].
    apply Hw. intros []; auto.
  - destruct (engine (browser s)); try exact Hs.
    eapply capture_held_untouched;
      [apply called_keeps_capture_untouched, onresult_keeps_capture_untouched | exact Hs].
  - destruct (engine (browser s)); try exact Hs; now apply onerror_capture_held.
  - destruct (engine (browser s)); try exact Hs;
      (eapply capture_held_untouched;
       [apply called_keeps_capture_untouched, onend_keeps_capture_untouched|];
       apply Hw; intros []; auto).
  - destruct (bool_decide (h ∈ timers (browser s))); [|exact Hs].
    eapply capture_held_untouched;
      [apply called_keeps_capture_untouched, pause_elapsed_keeps_capture_untouched|].
    apply Hw. intros []; auto.
  - destruct (fetches (browser s)) as [|n]; [exact Hs|].
    eapply capture_held_untouched;
      [apply called_keeps_capture_untouched, async_keeps_capture_untouched,
         sendToBackend_resumed_keeps_capture_untouched|].
    apply Hw. intros []; auto.
  - destruct (speech (browser s)) as [[]|]; exact Hs.
Qed.

(** From page load on, whenever the visualizer flag is set the script
    holds a source node whose stream is live and an audio context that is
    open; and whatever source node or context it holds is live or open, so
    [stopVisualizer] always has something real to release.  (The converse
    does not hold: a stream can be live with the flag clear.) *)
Theorem visualizer_flag_means_capture (cfg : Config) (es : list Assistant.event) :
  (forall c, audioContext (script (Assistant.run (Assistant.boot cfg) es)) = Some c ->
             c ∈ contexts (browser (Assistant.run (Assistant.boot cfg) es)))
  /\ (forall m, mediaStreamSource (script (Assistant.run (Assistant.boot cfg) es)) = Some m ->
                m ∈ streams (browser (Assistant.run (Assistant.boot cfg) es)))
  /\ (isVisualizerActive (script (Assistant.run (Assistant.boot cfg) es)) = true ->
      is_Some (mediaStreamSource (script (Assistant.run (Assistant.boot cfg) es)))
      /\ is_Some (audioContext (script (Assistant.run (Assistant.boot cfg) es)))).
Proof.
  apply (run_invariant capture_held step_capture_held).
  destruct cfg as [[] [] []]; vm_compute; (split; [|split]); intros; discriminate.
Qed.

Lemma visualizer_flag_while_capturing :
  isVisualizerActive (script (Assistant.run (Assistant.boot desktop)
                                [Assistant.Click; Assistant.MediaSettled true])) = true
  /\ is_Some (mediaStreamSource (script (Assistant.run (Assistant.boot desktop)
                                          [Assistant.Click; Assistant.MediaSettled true]))).
Proof.
  assert (H : isVisualizerActive (script (Assistant.run (Assistant.boot desktop)
                                            [Assistant.Click; Assistant.MediaSettled true]))
              = true) by (vm_compute; reflexivity).
  split; [exact H|].
  exact (proj1 (proj2 (proj2 (visualizer_flag_means_capture desktop
                                [Assistant.Click; Assistant.MediaSettled true])) H)).
Defined.

(** *** No handler reads through an undefined object *)

Definition is_type_error (e : effect) : bool :=
  match e with Uncaught TypeError => true | _ => false end.

(** The TypeErrors that escaped a handler so far. *)
Definition type_errors (s : State) : list effect := List.filter is_type_error (log s).

(** The bars exist, one per [visualValueCount]. *)
Definition bars_ready (s : State) : Prop :=
  exists bars, visualElements (script s) = Some bars
               /\ length bars = visualValueCount (script s).

(** Nothing that needs the bars is under way. *)
Definition nothing_started (s : State) : Prop :=
  engine (browser s) = Inactive /\ media_requests (browser s) = 0
  /\ frames (browser s) = 0 /\ isVisualizerActive (script s) = false.

Definition wired (s : State) : Prop :=
  (button_disabled (dom s) = false -> recognition (script s) = true)
  /\ (bars_ready s \/ nothing_started s).

Definition wiring_untouched (s s' : State) : Prop :=
  visualElements (script s') = visualElements (script s)
  /\ visualValueCount (script s') = visualValueCount (script s)
  /\ recognition (script s') = recognition (script s)
  /\ button_disabled (dom s') = button_disabled (dom s)
  /\ engine (browser s') = engine (browser s)
  /\ media_requests (browser s') = media_requests (browser s)
  /\ frames (browser s') = frames (browser s)
  /\ isVisualizerActive (script s') = isVisualizerActive (script s).

Lemma wiring_untouched_refl s : wiring_untouched s s.
Proof. unfold wiring_untouched. auto 10. Qed.

Lemma wiring_untouched_trans s1 s2 s3 :
  wiring_untouched s1 s2 -> wiring_untouched s2 s3 -> wiring_untouched s1 s3.
Proof.
  unfold wiring_untouched.
  intros (-> & -> & -> & -> & -> & -> & -> & ->) (-> & -> & -> & -> & -> & -> & -> & ->).
  auto 10.
Qed.

Lemma fresh_keeps_wiring : keeps wiring_untouched fresh.
Proof. intros s. destruct_state s. unfold wiring_untouched. simpl. auto 10. Qed.

Ltac keeps_wiring :=
  keeps_structure wiring_untouched_refl wiring_untouched_trans;
  first
    [ apply fresh_keeps_wiring
    | match goal with |- keeps _ (modify _) => apply keeps_modify end;
      intros s; destruct_state s;
      unfold wiring_untouched; js_setters; js_unfold; simpl; auto 10 ].

Lemma speakText_keeps_wiring t : keeps wiring_untouched (Assistant.speakText t).
Proof. unfold Assistant.speakText. keeps_wiring. Qed.

Lemma sendToBackend_keeps_wiring t : keeps wiring_untouched (Assistant.sendToBackend t).
Proof. unfold Assistant.sendToBackend. keeps_wiring. Qed.

Lemma sendToBackend_resumed_keeps_wiring r :
  keeps wiring_untouched (Assistant.sendToBackend_resumed r).
Proof.
  unfold Assistant.sendToBackend_resumed.
  keeps_structure wiring_untouched_refl wiring_untouched_trans;
    try apply speakText_keeps_wiring; keeps_wiring.
Qed.

Lemma pause_elapsed_keeps_wiring : keeps wiring_untouched Assistant.pause_elapsed.
Proof.
  unfold Assistant.pause_elapsed.
  keeps_structure wiring_untouched_refl wiring_untouched_trans;
    try apply sendToBackend_keeps_wiring; keeps_wiring.
Qed.

Lemma onend_keeps_wiring : keeps wiring_untouched Assistant.onend.
Proof.
  unfold Assistant.onend.
  keeps_structure wiring_untouched_refl wiring_untouched_trans;
    try apply sendToBackend_keeps_wiring; keeps_wiring.
Qed.

Lemma onstart_keeps_wiring : keeps wiring_untouched Assistant.onstart.
Proof. unfold Assistant.onstart. keeps_wiring. Qed.

Lemma onresult_keeps_wiring ev : keeps wiring_untouched (Assistant.onresult ev).
Proof. unfold Assistant.onresult, setTimeout. keeps_wiring. Qed.

Lemma called_keeps_wiring m s : keeps wiring_untouched m -> wiring_untouched s (call m s).
Proof.
  intros H. apply (keeps_call _ wiring_untouched_trans); [exact H|].
  intros s0 e. destruct_state s0. unfold wiring_untouched. simpl. auto 10.
Qed.

Lemma async_keeps_wiring m : keeps wiring_untouched m -> keeps wiring_untouched (async m).
Proof.
  intros H. unfold async.
  apply (keeps_try_catch _ wiring_untouched_trans); [exact H|].
  intros e s. destruct_state s. unfold wiring_untouched. simpl. auto 10.
Qed.

Lemma wired_untouched s s' : wiring_untouched s s' -> wired s -> wired s'.
Proof.
  unfold wired, bars_ready, nothing_started.
  intros (-> & -> & -> & -> & -> & -> & -> & ->). auto.
Qed.

(** Once the bars are there they stay, whatever else changes. *)
Definition bars_stay (s s' : State) : Prop :=
  recognition (script s') = recognition (script s)
  /\ button_disabled (dom s') = button_disabled (dom s)
  /\ (bars_ready s -> bars_ready s').

Lemma wired_bars_stay s s' : bars_stay s s' -> bars_ready s -> wired s -> wired s'.
Proof.
  unfold wired. intros (-> & -> & Hb) Hr (Hw & _). split; [exact Hw | left; auto].
Qed.

Ltac no_type_error :=
  unfold type_errors; simpl; rewrite ?List.filter_app; simpl; rewrite ?app_nil_r;
  try reflexivity.

(** The handlers that need nothing. *)
Lemma onstart_type_errors s : type_errors (call Assistant.onstart s) = type_errors s.
Proof.
  destruct_state s. unfold Assistant.onstart. js_run.
  destruct tm, sp as [[]|]; no_type_error.
Qed.

Lemma onresult_type_errors ev s : type_errors (call (Assistant.onresult ev) s) = type_errors s.
Proof.
  destruct_state s. unfold Assistant.onresult. js_run.
  destruct tm; simpl; destruct (nonempty (collect ev).2); no_type_error.
Qed.

Lemma onend_type_errors s : type_errors (call Assistant.onend s) = type_errors s.
Proof.
  destruct_state s. unfold Assistant.onend, Assistant.sendToBackend. js_run.
  destruct tm; simpl; split_ifs; no_type_error.
Qed.

Lemma pause_elapsed_type_errors s : type_errors (call Assistant.pause_elapsed s) = type_errors s.
Proof.
  destruct_state s. unfold Assistant.pause_elapsed, Assistant.sendToBackend. js_run.
  split_ifs; no_type_error.
Qed.

Lemma sendToBackend_resumed_type_errors r s :
  type_errors (call (async (Assistant.sendToBackend_resumed r)) s) = type_errors s.
Proof.
  destruct_state s. unfold Assistant.sendToBackend_resumed, Assistant.speakText.
  destruct r as [|ok st body]; [|destruct ok; [destruct body as [v|]|]];
    try (destruct (truthy v), (get_response v) as [a|]; try destruct (truthy a));
    destruct sp as [[]|]; js_run; no_type_error.
Qed.

Lemma resumed_type_errors granted s :
  type_errors (call (async (startVisualizer_resumed Assistant.processVisualizerError granted)) s)
  = type_errors s
  /\ bars_stay s (call (async (startVisualizer_resumed Assistant.processVisualizerError granted)) s).
Proof.
  destruct_state s.
  unfold bars_stay, bars_ready, startVisualizer_resumed, Assistant.processVisualizerError,
    Assistant.speakText.
  destruct granted, ac, sp as [[]|], bm; js_run; split; no_type_error; auto.
Qed.

(** The handlers that need the recognition object or the bars. *)
Lemma toggle_type_errors s :
  recognition (script s) = true ->
  wired s ->
  type_errors (call toggleSTTAndVisualizer s) = type_errors s
  /\ wired (call toggleSTTAndVisualizer s).
Proof.
  destruct_state s.
  unfold wired, bars_ready, nothing_started, toggleSTTAndVisualizer, recognition_stop,
    recognition_start, startVisualizer, createDOMElementsForVisualizer, style_all. js_run.
  intros -> (Hw & Hb).
  destruct li, en, va; simpl; (split; [no_type_error|]); (split; [auto|]);
    try (left; eexists; split; [reflexivity|];
         rewrite length_fmap, length_replicate; reflexivity);
    destruct Hb as [Hb|(? & ? & ? & ?)]; auto; discriminate.
Qed.

Lemma onerror_type_errors e s :
  bars_ready s ->
  type_errors (call (Assistant.onerror e) s) = type_errors s
  /\ bars_stay s (call (Assistant.onerror e) s).
Proof.
  destruct_state s.
  unfold bars_stay, bars_ready, Assistant.onerror, Assistant.speakText, stopVisualizer,
    style_all. js_run.
  intros (bars & -> & Hlen).
  destruct tm, ms, ac, bm; simpl; try (destruct (bool_decide _); simpl);
    destruct sp as [[]|]; simpl; (split; [no_type_error|]);
    (split; [reflexivity|split; [reflexivity|]]);
    intros _; eexists; (split; [reflexivity|]); now rewrite length_fmap.
Qed.

Lemma render_type_errors data s :
  bars_ready s ->
  type_errors (call (renderVisualizerFrame data) s) = type_errors s
  /\ bars_stay s (call (renderVisualizerFrame data) s).
Proof.
  intros (bars & Hve & Hlen). unfold call.
  destruct (isVisualizerActive (script s)) eqn:Hact.
  - rewrite (renderVisualizerFrame_active data s bars Hve Hlen Hact).
    destruct_state s. unfold bars_stay, bars_ready. simpl in *.
    split; [reflexivity|]. split; [reflexivity|split; [reflexivity|]].
    intros _. eexists. split; [reflexivity|]. now rewrite paint_loop_length.
  - assert (Hr : renderVisualizerFrame data s
                 = Ok tt (on_script (set_visualElements (Some ((fun _ => Bar 0 0) <$> bars))) s)).
    { unfold renderVisualizerFrame, bind, read. now rewrite Hact, style_all_spec, Hve. }
    rewrite Hr. destruct_state s. unfold bars_stay, bars_ready. simpl in *.
    split; [reflexivity|]. split; [reflexivity|split; [reflexivity|]].
    intros _. eexists. split; [reflexivity|]. now rewrite length_fmap.
Qed.

Lemma wired_on_browser (f : Browser -> Browser) s :
  (bars_ready s \/ nothing_started (on_browser f s)) ->
  wired s -> wired (on_browser f s) /\ type_errors (on_browser f s) = type_errors s
             /\ (bars_ready s -> bars_ready (on_browser f s)).
Proof.
  destruct s as [sc b d l]. unfold wired, bars_ready, on_browser. simpl.
  intros Hb (Hw & _). split; [split; [exact Hw | exact Hb]|]. auto.
Qed.

Definition sound (s : State) : Prop := wired s /\ type_errors s = [].

Lemma step_sound s e : sound s -> sound (Assistant.step s e).
Proof.
  intros (Hw & Ht). pose proof Hw as (Hrec & Hbars). unfold sound.
  assert (Hneed : forall P : Prop, (nothing_started s -> False) -> bars_ready s)
    by (intros P HP; destruct Hbars as [H|H]; [exact H | destruct (HP H)]).
  destruct e as [|granted|data| |ev|err| |h|r|]; cbn [Assistant.step].
  - destruct (button_in_main (dom s)); simpl; [|auto].
    destruct (button_disabled (dom s)) eqn:Hd; simpl; [auto|].
    destruct (toggle_type_errors s (Hrec eq_refl) Hw) as (He & Hw'). now rewrite He.
  - destruct (media_requests (browser s)) as [|n] eqn:Hm; [auto|].
    assert (Hr : bars_ready s)
      by (apply (Hneed True); intros (_ & H & _); congruence).
    destruct (wired_on_browser (set_media_requests n) s (or_introl Hr) Hw) as (Hw1 & Ht1 & Hb1).
    destruct (resumed_type_errors granted (on_browser (set_media_requests n) s)) as (He & Hs).
    rewrite He, Ht1. split; [|exact Ht].
    exact (wired_bars_stay _ _ Hs (Hb1 Hr) Hw1).
  - destruct (frames (browser s)) as [|n] eqn:Hf; [auto|].
    destruct (decide (length data = 32)); [|auto].
    assert (Hr : bars_ready s)
      by (apply (Hneed True); intros (_ & _ & H & _); congruence).
    destruct (wired_on_browser (set_frames n) s (or_introl Hr) Hw) as (Hw1 & Ht1 & Hb1).
    destruct (render_type_errors data (on_browser (set_frames n) s) (Hb1 Hr)) as (He & Hs).
    rewrite He, Ht1. split; [|exact Ht].
    exact (wired_bars_stay _ _ Hs (Hb1 Hr) Hw1).
  - destruct (engine (browser s)) eqn:Hen; auto.
    assert (Hr : bars_ready s)
      by (apply (Hneed True); intros (H & _); congruence).
    destruct (wired_on_browser (set_engine Started) s (or_introl Hr) Hw) as (Hw1 & Ht1 & _).
    rewrite onstart_type_errors, Ht1. split; [|exact Ht].
    eapply wired_untouched; [apply called_keeps_wiring, onstart_keeps_wiring | exact Hw1].
  - destruct (engine (browser s)) eqn:Hen; auto.
    rewrite onresult_type_errors. split; [|exact Ht].
    eapply wired_untouched; [apply called_keeps_wiring, onresult_keeps_wiring | exact Hw].
  - assert (Hgo : engine (browser s) <> Inactive ->
                  wired (call (Assistant.onerror err) s)
                  /\ type_errors (call (Assistant.onerror err) s) = []).
    { intros Hne.
      assert (Hr : bars_ready s) by (apply (Hneed True); intros (H & _); congruence).
      destruct (onerror_type_errors err s Hr) as (He & Hs).
      rewrite He. split; [|exact Ht]. exact (wired_bars_stay _ _ Hs Hr Hw). }
    destruct (engine (browser s)); auto; apply Hgo; discriminate.
  - assert (Hgo : engine (browser s) <> Inactive ->
                  wired (call Assistant.onend (on_browser (set_engine Inactive) s))
                  /\ type_errors (call Assistant.onend (on_browser (set_engine Inactive) s)) = []).
    { intros Hne.
      assert (Hr : bars_ready s) by (apply (Hneed True); intros (H & _); congruence).
      destruct (wired_on_browser (set_engine Inactive) s (or_introl Hr) Hw) as (Hw1 & Ht1 & _).
      rewrite onend_type_errors, Ht1. split; [|exact Ht].
      eapply wired_untouched; [apply called_keeps_wiring, onend_keeps_wiring | exact Hw1]. }
    destruct (engine (browser s)); auto; apply Hgo; discriminate.
  - destruct (bool_decide (h ∈ timers (browser s))); [|auto].
    set (f := fun b => set_timers (filter (fun x => x <> h) (timers b)) b).
    assert (H1 : wired (on_browser f s) /\ type_errors (on_browser f s) = type_errors s).
    { destruct s as [sc b d l]. destruct b. exact (conj Hw eq_refl). }
    destruct H1 as (Hw1 & Ht1).
    rewrite pause_elapsed_type_errors, Ht1. split; [|exact Ht].
    eapply wired_untouched; [apply called_keeps_wiring, pause_elapsed_keeps_wiring | exact Hw1].
  - destruct (fetches (browser s)) as [|n]; [auto|].
    assert (H1 : wired (on_browser (set_fetches n) s)
                 /\ type_errors (on_browser (set_fetches n) s) = type_errors s).
    { destruct s as [sc b d l]. destruct b. exact (conj Hw eq_refl). }
    destruct H1 as (Hw1 & Ht1).
    rewrite sendToBackend_resumed_type_errors, Ht1. split; [|exact Ht].
    eapply wired_untouched;
      [apply called_keeps_wiring, async_keeps_wiring, sendToBackend_resumed_keeps_wiring
      | exact Hw1].
  - destruct (speech (browser s)) as [[]|] eqn:Hsp; auto.
Qed.

(** From page load on, whatever the browser delivers, no handler ever
    fails with a TypeError: the recognition object is there whenever the
    button can be clicked, and the bars are there, one per
    [visualValueCount], whenever a frame is rendered or the visualizer is
    torn down. *)
Theorem no_type_error_escapes (cfg : Config) (es : list Assistant.event) :
  ~ In (Uncaught TypeError) (log (Assistant.run (Assistant.boot cfg) es)).
Proof.
  assert (Hs : sound (Assistant.run (Assistant.boot cfg) es)).
  { apply (run_invariant sound step_sound).
    destruct cfg as [[] [] []]; vm_compute;
      (split; [split; [intros; congruence | right; auto] | reflexivity]). }
  destruct Hs as (_ & Ht). intros Hin.
  assert (H : In (Uncaught TypeError) (type_errors (Assistant.run (Assistant.boot cfg) es))).
  { unfold type_errors. apply filter_In. split; [exact Hin | reflexivity]. }
  rewrite Ht in H. exact H.
Qed.

(** ** Errors and the end of a session *)

(** The error callback of the richer variant, once the bars exist, tears
    down and then reports by kind: one message for [no-speech], one for
    [not-allowed], and a general one for anything else; the message is
    shown, and spoken where the browser can speak. *)
Theorem onerror_reports_by_kind (error : jsstring) (s : State) :
  visualElements (script s) <> None ->
  let message :=
    if decide (error = lit "no-speech") then lit "I didn't hear anything. Please try again."
    else if decide (error = lit "not-allowed")
         then lit "Microphone access denied. Please allow it in your browser settings."
         else lit "Speech input error. Please try again." in
  transcript (dom (call (Assistant.onerror error) s)) = JStr message
  /\ Assistant.spoken (call (Assistant.onerror error) s)
     = Assistant.spoken s
       ++ match speech (browser s) with Some _ => [JStr message] | None => [] end
  /\ ~ In (Uncaught TypeError) (drop (length (log s)) (log (call (Assistant.onerror error) s))).
Proof.
  intros Hve message. destruct_state s. simpl in Hve.
  destruct ve as [bars|]; [clear Hve | congruence].
  unfold Assistant.onerror, Assistant.speakText, stopVisualizer, style_all, Assistant.spoken.
  fold message. clearbody message. js_run.
  destruct tm, ms, ac, bm; simpl; try (destruct (bool_decide _); simpl);
    destruct sp as [[]|]; simpl;
    rewrite <- ?app_assoc, ?omap_app, drop_app_length; simpl; rewrite ?app_nil_r;
    (split; [reflexivity|split; [reflexivity|intuition discriminate]]).
Qed.

Lemma onerror_reports_no_speech :
  visualElements (script in_session) <> None
  /\ transcript (dom (call (Assistant.onerror (lit "no-speech")) in_session))
     = JStr (lit "I didn't hear anything. Please try again.").
Proof.
  assert (H : visualElements (script in_session) <> None) by (vm_compute; discriminate).
  split; [exact H|].
  destruct (onerror_reports_by_kind (lit "no-speech") in_session H) as (Ht & _).
  rewrite Ht. vm_compute. reflexivity.
Defined.

(** In the simpler variant the ended callback that follows an error
    releases nothing more and does not throw; all it changes is the
    display, where "Ready" replaces the error's message. *)
Theorem simple_end_after_error (error : jsstring) (s : State) :
  visualElements (script s) <> None ->
  call Simple.onend (call (Simple.onerror error) s)
  = on_dom (set_transcript (JStr (lit "Ready"))) (call (Simple.onerror error) s).
Proof.
  intros Hve. destruct_state s. simpl in Hve.
  destruct ve as [bars|]; [clear Hve | congruence].
  unfold Simple.onerror, Simple.onend, stopVisualizer, style_all. js_run.
  destruct ms, ac, bm; simpl; try (destruct (bool_decide _) eqn:Hd; simpl; rewrite ?Hd; simpl);
    rewrite ?fmap_const_twice; reflexivity.
Qed.

Lemma simple_end_after_error_in_session :
  visualElements (script in_session) <> None
  /\ released (call Simple.onend (call (Simple.onerror (lit "network")) in_session))
     = released (call (Simple.onerror (lit "network")) in_session).
Proof.
  assert (H : visualElements (script in_session) <> None) by (vm_compute; discriminate).
  split; [exact H|].
  rewrite (simple_end_after_error (lit "network") in_session H). vm_compute. reflexivity.
Defined.

(** ** Page load *)

(** Where the browser has no speech recognition, the load disables the
    button and shows, and speaks, that recognition is not supported; but it
    then goes on to show and speak the invitation to click, so what stays
    on display is that invitation, next to a button that cannot be
    clicked. *)
Theorem load_without_recognition (cfg : Config) :
  stt_supported cfg = false ->
  button_disabled (dom (Assistant.boot cfg)) = true
  /\ recognition (script (Assistant.boot cfg)) = false
  /\ transcript (dom (Assistant.boot cfg)) = JStr Assistant.click_start_to_talk
  /\ (tts_supported cfg = true ->
      Assistant.spoken (Assistant.boot cfg)
      = [JStr (lit "Browser doesn't support speech to text.");
         JStr (lit "Click start to talk.")]
      /\ In CancelSpeech (log (Assistant.boot cfg))).
Proof.
  destruct cfg as [[] st []]; simpl; intros ->;
    (split; [vm_compute; reflexivity|]); (split; [vm_compute; reflexivity|]);
    (split; [vm_compute; reflexivity|]); intros H; try discriminate H;
    (split; [vm_compute; reflexivity | vm_compute; tauto]).
Qed.

Lemma load_without_recognition_on_desktop :
  stt_supported (MkConfig false false true) = false
  /\ tts_supported (MkConfig false false true) = true
  /\ transcript (dom (Assistant.boot (MkConfig false false true)))
     = JStr Assistant.click_start_to_talk
  /\ In CancelSpeech (log (Assistant.boot (MkConfig false false true))).
Proof.
  split; [reflexivity|]. split; [reflexivity|].
  destruct (load_without_recognition (MkConfig false false true) eq_refl) as (_ & _ & Ht & Hs).
  split; [exact Ht | exact (proj2 (Hs eq_refl))].
Defined.
